(** * Video-processing frame transforms: model and verification

    Shallow embedding of the insertable-streams video-processing stages:
    [simple-transforms.js] (NullTransform, DropTransform, DelayTransform,
    CropTransform) and the WebGPU stage (WebGPUTransform with its WGSL
    shaders).

    Modelling conventions.
    - JavaScript numbers that the code only compares or subtracts
      (timestamps, display and canvas dimensions: Web IDL integers) are [Z].
      Numbers that go through [/], [Math.sin], [Math.cos] or [Math.random]
      are idealised as real numbers [R]; the WGSL [f32] values as well.
    - Every method is an [async] function.  It is modelled as one run to
      completion: a computation over the stage object ([this]) and the
      allocator of object identities, which emits the externally visible
      events in order and either returns or throws (a rejected promise).
    - Platform calls (GPU device, canvas, [VideoFrame] constructor) are
      modelled by what the source relies on; they do not fail by themselves.
      Dereferencing [null] or [undefined] throws a [TypeError]. *)

From Stdlib Require Import ZArith List Bool Lia Reals Lra String.
Import ListNotations.

(** ** Platform data *)

(** Identity of a JavaScript object (frames, textures, bitmaps). *)
Definition handle := nat.

(** [frame.visibleRegion], and the dictionary passed to [new VideoFrame]. *)
Record VideoFrameRegion : Type := mkRegion {
  left : R;
  top : R;
  width : R;
  height : R
}.

(** Pixel content carried by a frame: either image data produced by the
    external source, or the content of the canvas after the WebGPU stage drew
    the textured quad over a viewport [vw] x [vh], sampling a texture that
    holds [src]. *)
Inductive Pixels : Type :=
| Decoded (buffer : nat)
| Rendered (vw vh : Z) (src : Pixels).

Record VideoFrame : Type := mkFrame {
  frame_handle : handle;
  timestamp : Z;
  displayWidth : Z;
  displayHeight : Z;
  visibleRegion : VideoFrameRegion;
  pixels : Pixels
}.

Record OffscreenCanvas : Type := mkCanvas {
  canvas_width : Z;
  canvas_height : Z;
  canvas_content : option Pixels
}.

Inductive GPUCanvasContext : Type := mkContext (id : nat).
Inductive GPUAdapter : Type := mkAdapter (id : nat).
Inductive GPUDevice : Type := mkDevice (id : nat).

Inductive AddressMode : Type := repeat_mode | clamp_to_edge.
Inductive FilterMode : Type := linear | nearest.

Record GPUSampler : Type := mkSampler {
  addressModeU : AddressMode;
  addressModeV : AddressMode;
  addressModeW : AddressMode;
  magFilter : FilterMode;
  minFilter : FilterMode
}.

Record GPUBuffer : Type := mkBuffer {
  buffer_size : Z;
  buffer_data : list Z
}.

Record GPUTexture : Type := mkTexture {
  texture_handle : handle;
  texture_width : Z;
  texture_height : Z;
  texture_data : option Pixels
}.

(** Which of the two WGSL programs a shader module was compiled from. *)
Inductive ShaderCode : Type := wgsl_vertex | wgsl_fragment.

Record VertexAttribute : Type := mkAttribute {
  shaderLocation : Z;
  attr_offset : Z;
  attr_floats : Z
}.

Record GPURenderPipeline : Type := mkPipeline {
  vertex_module : ShaderCode;
  arrayStride : Z;
  attributes : list VertexAttribute;
  fragment_module : ShaderCode;
  target_format : string;
  topology : string
}.

(** [texture.createView()]: what a shader sees of a texture. *)
Record GPUTextureView : Type := mkView {
  view_width : Z;
  view_height : Z;
  view_data : option Pixels
}.

Definition createView (t : GPUTexture) : GPUTextureView :=
  mkView (texture_width t) (texture_height t) (texture_data t).

(** The entries of a bind group, by binding index. *)
Record GPUBindGroup : Type := mkBindGroup {
  binding0 : GPUSampler;
  binding1 : GPUTextureView
}.

(** One submitted render pass. *)
Record RenderPass : Type := mkPass {
  pass_viewport : Z * Z;
  pass_pipeline : GPURenderPipeline;
  pass_vertexBuffer : option GPUBuffer;
  pass_bindGroup : GPUBindGroup;
  pass_draw : Z
}.

(** ** Externally visible events *)

Inductive Event : Type :=
| EvLog (msg : string)
| EvAlert (msg : string)
| EvTimeout (ms : Z)
| EvEnqueue (f : VideoFrame)
| EvFrameClose (h : handle)
| EvConfigure (w h : Z) (d : option GPUDevice) (format : string)
| EvBitmapClose (h : handle)
| EvSubmit (p : RenderPass)
| EvTextureDestroy (h : handle)
| EvBufferDestroy (b : GPUBuffer).

Inductive Exn : Type :=
| TypeError (what : string).

Inductive Completion (A : Type) : Type :=
| Returned (a : A)
| Thrown (e : Exn).
Arguments Returned {A} a.
Arguments Thrown {A} e.

(** ** The method monad: state, event log, exceptions *)

(** What a method runs over: the stage object and the next free identity. *)
Record Machine (Obj : Type) : Type := mkMachine {
  this : Obj;
  next_handle : handle
}.
Arguments mkMachine {Obj} this next_handle.
Arguments this {Obj} m.
Arguments next_handle {Obj} m.

Record Outcome (Obj A : Type) : Type := mkOutcome {
  final : Machine Obj;
  events : list Event;
  completion : Completion A
}.
Arguments mkOutcome {Obj A} final events completion.
Arguments final {Obj A} o.
Arguments events {Obj A} o.
Arguments completion {Obj A} o.

Definition M (Obj A : Type) : Type := Machine Obj -> Outcome Obj A.

Definition ret {Obj A} (a : A) : M Obj A :=
  fun m => mkOutcome m [] (Returned a).

Definition bind {Obj A B} (c : M Obj A) (k : A -> M Obj B) : M Obj B :=
  fun m =>
    match c m with
    | mkOutcome m1 evs1 (Returned a) =>
        match k a m1 with
        | mkOutcome m2 evs2 r => mkOutcome m2 (evs1 ++ evs2) r
        end
    | mkOutcome m1 evs1 (Thrown e) => mkOutcome m1 evs1 (Thrown e)
    end.

Definition throw {Obj A} (e : Exn) : M Obj A :=
  fun m => mkOutcome m [] (Thrown e).

Definition emit {Obj} (e : Event) : M Obj unit :=
  fun m => mkOutcome m [e] (Returned tt).

Definition get_this {Obj} : M Obj Obj :=
  fun m => mkOutcome m [] (Returned (this m)).

Definition set_this {Obj} (s : Obj) : M Obj unit :=
  fun m => mkOutcome (mkMachine s (next_handle m)) [] (Returned tt).

(** Allocation of a new object: a fresh identity. *)
Definition fresh {Obj} : M Obj handle :=
  fun m => mkOutcome (mkMachine (this m) (S (next_handle m))) []
                     (Returned (next_handle m)).

(** Member access on a possibly-null reference. *)
Definition deref {Obj A} (what : string) (o : option A) : M Obj A :=
  match o with
  | Some a => ret a
  | None => throw (TypeError what)
  end.

Declare Scope js_scope.
Delimit Scope js_scope with js.
Notation "x <- c ;; k" := (bind c (fun x => k))
  (at level 61, c at next level, right associativity) : js_scope.
Notation "c ;;; k" := (bind c (fun _ => k))
  (at level 61, right associativity) : js_scope.
Open Scope js_scope.

(** ** Platform operations used by the stages *)

(** What the environment answers during one call. *)
Record Platform : Type := mkPlatform {
  Math_random : R;
  getContext_gpupresent : option GPUCanvasContext;
  requestAdapter : option GPUAdapter;
  requestDevice : option GPUDevice
}.

Record VideoFrameInit : Type := mkInit {
  init_timestamp : option Z;
  init_visibleRegion : option VideoFrameRegion
}.

(** [controller.enqueue(frame)] *)
Definition enqueue {Obj} (f : VideoFrame) : M Obj unit := emit (EvEnqueue f).

(** [frame.close()] *)
Definition close {Obj} (f : VideoFrame) : M Obj unit :=
  emit (EvFrameClose (frame_handle f)).

(** [new VideoFrame(frame, init)]: a new frame object over the same image;
    members absent from [init] are taken from the source frame. *)
Definition new_VideoFrame_from_frame {Obj} (src : VideoFrame)
    (init : VideoFrameInit) : M Obj VideoFrame :=
  h <- fresh ;;
  ret (mkFrame h
         (match init_timestamp init with
          | Some t => t
          | None => timestamp src
          end)
         (displayWidth src) (displayHeight src)
         (match init_visibleRegion init with
          | Some r => r
          | None => visibleRegion src
          end)
         (pixels src)).

(** [new VideoFrame(canvas, init)]: a new frame holding the canvas content;
    a canvas has no timestamp of its own, so [init] must give one. *)
Definition new_VideoFrame_from_canvas {Obj} (c : OffscreenCanvas)
    (init : VideoFrameInit) : M Obj VideoFrame :=
  t <- deref "timestamp" (init_timestamp init) ;;
  px <- deref "canvas content" (canvas_content c) ;;
  h <- fresh ;;
  ret (mkFrame h t (canvas_width c) (canvas_height c)
         (match init_visibleRegion init with
          | Some r => r
          | None => mkRegion 0 0 (IZR (canvas_width c)) (IZR (canvas_height c))
          end)
         px).

(** ** simple-transforms.js *)

Module NullTransform.
Record t : Type := mk { }.
Definition constructor : t := mk.
Definition init (p : Platform) : M t unit := ret tt.
Definition transform (p : Platform) (frame : VideoFrame) : M t unit :=
  enqueue frame.
Definition destroy : M t unit := ret tt.
End NullTransform.

Module DropTransform.
Record t : Type := mk { }.
Definition constructor : t := mk.
Definition init (p : Platform) : M t unit := ret tt.
Definition transform (p : Platform) (frame : VideoFrame) : M t unit :=
  if Rlt_dec (Math_random p) 0.5 then enqueue frame else close frame.
Definition destroy : M t unit := ret tt.
End DropTransform.

Module DelayTransform.
Record t : Type := mk { }.
Definition constructor : t := mk.
Definition init (p : Platform) : M t unit := ret tt.
Definition transform (p : Platform) (frame : VideoFrame) : M t unit :=
  emit (EvTimeout 100) ;;;
  enqueue frame.
Definition destroy : M t unit := ret tt.
End DelayTransform.

Module CropTransform.
Record t : Type := mk {
  firstTimestamp_ : option Z
}.

Definition constructor : t := mk None.

Definition init (p : Platform) : M t unit := ret tt.

(** JavaScript [!x] for [x : ?number] holding an integer: [null] and [0]
    are falsy. *)
Definition falsy (x : option Z) : bool :=
  match x with
  | None => true
  | Some v => Z.eqb v 0
  end.

(** [timestamp - this.firstTimestamp_]; [null] converts to [0]. *)
Definition elapsed (timestamp : Z) (first : option Z) : Z :=
  match first with
  | Some v => timestamp - v
  | None => timestamp - 0
  end.

Definition crop_left (loop w : R) : R :=
  (sin (PI / 2 * loop) + 1) / 2 * w / 2.

Definition crop_top (loop h : R) : R :=
  (cos (PI / 2 * loop) + 1) / 2 * h / 2.

Definition transform (p : Platform) (frame : VideoFrame) : M t unit :=
  let timestamp := timestamp frame in
  self <- get_this ;;
  (if falsy (firstTimestamp_ self)
   then set_this (mk (Some timestamp))
   else ret tt) ;;;
  self <- get_this ;;
  let loop := (IZR (elapsed timestamp (firstTimestamp_ self)) / 4000000)%R in
  let left := crop_left loop (width (visibleRegion frame)) in
  let top := crop_top loop (height (visibleRegion frame)) in
  croppedFrame <- new_VideoFrame_from_frame frame
    (mkInit None
       (Some (mkRegion left top
                (width (visibleRegion frame) / 2)
                (height (visibleRegion frame) / 2)))) ;;
  close frame ;;;
  enqueue croppedFrame.

Definition destroy : M t unit := ret tt.
End CropTransform.

(** ** The WGSL programs *)

Definition vec2 : Type := R * R.
Definition vec3 : Type := R * R * R.
Definition vec4 : Type := R * R * R * R.

Module wgslShaders.
Local Open Scope R_scope.

Definition distance (a b : vec2) : R :=
  sqrt ((fst a - fst b) * (fst a - fst b) + (snd a - snd b) * (snd a - snd b)).

(** [pow(x, y)] for [x >= 0]. *)
Definition pow (x y : R) : R :=
  if Req_dec_T x 0 then 0 else Rpower x y.

Definition vertex (position : vec3) (uv : vec2) : vec4 * vec2 :=
  let '(px, py, pz) := position in
  ((px, py, pz, 1), uv).

(** The texture coordinate at which the fragment program samples. *)
Definition fragment_quadrants (fragUV : vec2) : vec2 :=
  let angle := pow (Rmax (0.5 - distance fragUV (0.5, 0.5)) 0.0 * 2.0) 2.0 in
  let rotation := (sin angle, cos angle) in
  let fromCenter := (fst fragUV - 0.5, snd fragUV - 0.5) in
  let rotatedPosition :=
    (fst fromCenter * snd rotation + snd fromCenter * fst rotation + 0.5,
     snd fromCenter * snd rotation - fst fromCenter * fst rotation + 0.5) in
  (fst rotatedPosition * 2.0, snd rotatedPosition * 2.0).

Section Fragment.
(** The [textureSample] builtin of the device. *)
Variable textureSample : GPUTextureView -> GPUSampler -> vec2 -> vec4.

Definition fragment (mySampler : GPUSampler) (myTexture : GPUTextureView)
    (fragUV : vec2) : vec4 :=
  let quadrants := fragment_quadrants fragUV in
  textureSample myTexture mySampler quadrants.

(** The colour a submitted pass writes for the fragment at [fragUV]: the
    fragment program run against the pass's bind group. *)
Definition fragment_output (pass : RenderPass) (fragUV : vec2) : vec4 :=
  fragment (binding0 (pass_bindGroup pass))
           (binding1 (pass_bindGroup pass)) fragUV.
End Fragment.

End wgslShaders.

(** ** The WebGPU stage *)

Module WebGPUTransform.

Definition not_supported_message : string :=
  "Your browser does not support WebGPU. See the note at the bottom of the page.".

Definition webGPUNotSupported {Obj} : M Obj unit :=
  emit (EvAlert not_supported_message).

Definition swapChainFormat : string := "bgra8unorm".

Record t : Type := mk {
  canvas_ : option OffscreenCanvas;
  context_ : option GPUCanvasContext;
  device_ : option GPUDevice;
  renderPipeline_ : option GPURenderPipeline;
  verticesBuffer_ : option GPUBuffer;
  sampler_ : option GPUSampler;
  debugPath_ : string
}.

Definition set_canvas_ (c : option OffscreenCanvas) (s : t) : t :=
  mk c (context_ s) (device_ s) (renderPipeline_ s) (verticesBuffer_ s)
     (sampler_ s) (debugPath_ s).
Definition set_context_ (c : option GPUCanvasContext) (s : t) : t :=
  mk (canvas_ s) c (device_ s) (renderPipeline_ s) (verticesBuffer_ s)
     (sampler_ s) (debugPath_ s).
Definition set_device_ (d : option GPUDevice) (s : t) : t :=
  mk (canvas_ s) (context_ s) d (renderPipeline_ s) (verticesBuffer_ s)
     (sampler_ s) (debugPath_ s).
Definition set_renderPipeline_ (p : option GPURenderPipeline) (s : t) : t :=
  mk (canvas_ s) (context_ s) (device_ s) p (verticesBuffer_ s)
     (sampler_ s) (debugPath_ s).
Definition set_verticesBuffer_ (b : option GPUBuffer) (s : t) : t :=
  mk (canvas_ s) (context_ s) (device_ s) (renderPipeline_ s) b
     (sampler_ s) (debugPath_ s).
Definition set_sampler_ (x : option GPUSampler) (s : t) : t :=
  mk (canvas_ s) (context_ s) (device_ s) (renderPipeline_ s)
     (verticesBuffer_ s) x (debugPath_ s).

(** [this.field = v] *)
Definition assign (upd : t -> t) : M t unit :=
  self <- get_this ;; set_this (upd self).

(** [this.field], which must not be null for the member access that
    follows. *)
Definition field {A} (get : t -> option A) (what : string) : M t A :=
  self <- get_this ;; deref what (get self).

Definition constructor : t :=
  mk None None None None None None "debug.pipeline.frameTransform_".

Definition rectVerts : list Z :=
  [ 1; 1; 0;   1; 0;
    1; -1; 0;  1; 1;
    -1; -1; 0; 0; 1;
    1; 1; 0;   1; 0;
    -1; -1; 0; 0; 1;
    -1; 1; 0;  0; 0 ]%Z.

Definition byteLength (a : list Z) : Z := 4 * Z.of_nat (List.length a).

Definition the_pipeline : GPURenderPipeline :=
  mkPipeline wgsl_vertex 20
    [mkAttribute 0 0 3; mkAttribute 1 12 2]
    wgsl_fragment swapChainFormat "triangle-list".

Definition the_sampler : GPUSampler :=
  mkSampler repeat_mode repeat_mode repeat_mode linear linear.

Definition init (p : Platform) : M t unit :=
  emit (EvLog "[WebGPUTransform] Initializing WebGPU.") ;;;
  assign (set_canvas_ (Some (mkCanvas 1 1 None))) ;;;
  assign (set_context_ (getContext_gpupresent p)) ;;;
  self <- get_this ;;
  match context_ self with
  | None => webGPUNotSupported
  | Some _ =>
    match requestAdapter p with
    | None => webGPUNotSupported
    | Some _ =>
      assign (set_device_ (requestDevice p)) ;;;
      self <- get_this ;;
      match device_ self with
      | None => webGPUNotSupported
      | Some _ =>
        assign (set_verticesBuffer_
                  (Some (mkBuffer (byteLength rectVerts) rectVerts))) ;;;
        assign (set_renderPipeline_ (Some the_pipeline)) ;;;
        assign (set_sampler_ (Some the_sampler))
      end
    end
  end.

Definition setSize (width height : Z) : M t unit :=
  c <- field canvas_ "canvas_" ;;
  assign (set_canvas_ (Some (mkCanvas width (canvas_height c) None))) ;;;
  c <- field canvas_ "canvas_" ;;
  assign (set_canvas_ (Some (mkCanvas (canvas_width c) height None))) ;;;
  _ <- field context_ "context_" ;;
  self <- get_this ;;
  emit (EvConfigure width height (device_ self) swapChainFormat).

(** What the canvas holds once the pass has been executed. *)
Definition present (pass : RenderPass) (c : OffscreenCanvas)
    : OffscreenCanvas :=
  mkCanvas (canvas_width c) (canvas_height c)
    (option_map (Rendered (fst (pass_viewport pass))
                          (snd (pass_viewport pass)))
                (view_data (binding1 (pass_bindGroup pass)))).

Definition dimensions_differ (c : OffscreenCanvas) (width height : Z) : bool :=
  negb (Z.eqb (canvas_width c) width) || negb (Z.eqb (canvas_height c) height).

Definition transform (p : Platform) (frame : VideoFrame) : M t unit :=
  self <- get_this ;;
  match device_ self, canvas_ self with
  | Some _, Some canvas =>
    let width := displayWidth frame in
    let height := displayHeight frame in
    (if dimensions_differ canvas width height
     then setSize width height
     else ret tt) ;;;
    _ <- field device_ "device_" ;;
    th <- fresh ;;
    let videoTexture := mkTexture th width height None in
    bh <- fresh ;;
    let imageBitmap := pixels frame in
    _ <- field device_ "device_" ;;
    let videoTexture := mkTexture th width height (Some imageBitmap) in
    emit (EvBitmapClose bh) ;;;
    _ <- field device_ "device_" ;;
    pipeline <- field renderPipeline_ "renderPipeline_" ;;
    sampler <- field sampler_ "sampler_" ;;
    let uniformBindGroup := mkBindGroup sampler (createView videoTexture) in
    let timestamp := timestamp frame in
    close frame ;;;
    _ <- field device_ "device_" ;;
    _ <- field context_ "context_" ;;
    pipeline <- field renderPipeline_ "renderPipeline_" ;;
    self <- get_this ;;
    let pass := mkPass (width, height) pipeline (verticesBuffer_ self)
                       uniformBindGroup 6 in
    _ <- field device_ "device_" ;;
    emit (EvSubmit pass) ;;;
    c <- field canvas_ "canvas_" ;;
    assign (set_canvas_ (Some (present pass c))) ;;;
    c <- field canvas_ "canvas_" ;;
    out <- new_VideoFrame_from_canvas c (mkInit (Some timestamp) None) ;;
    enqueue out ;;;
    emit (EvTextureDestroy th)
  | _, _ =>
    close frame
  end.

Definition destroy : M t unit :=
  emit (EvLog "[WebGPUTransform] Freeing all WebGPU resources.") ;;;
  b <- field verticesBuffer_ "verticesBuffer_" ;;
  emit (EvBufferDestroy b) ;;;
  assign (set_device_ None).

End WebGPUTransform.

(** ** The FrameTransform interface and the pipeline's view of a stage *)

Class FrameTransform (T : Type) : Type := {
  ft_new : T;
  ft_init : Platform -> M T unit;
  ft_transform : Platform -> VideoFrame -> M T unit;
  ft_destroy : M T unit
}.

#[export] Instance NullTransform_ft : FrameTransform NullTransform.t :=
  Build_FrameTransform _ NullTransform.constructor NullTransform.init
    NullTransform.transform NullTransform.destroy.
#[export] Instance DropTransform_ft : FrameTransform DropTransform.t :=
  Build_FrameTransform _ DropTransform.constructor DropTransform.init
    DropTransform.transform DropTransform.destroy.
#[export] Instance DelayTransform_ft : FrameTransform DelayTransform.t :=
  Build_FrameTransform _ DelayTransform.constructor DelayTransform.init
    DelayTransform.transform DelayTransform.destroy.
#[export] Instance CropTransform_ft : FrameTransform CropTransform.t :=
  Build_FrameTransform _ CropTransform.constructor CropTransform.init
    CropTransform.transform CropTransform.destroy.
#[export] Instance WebGPUTransform_ft : FrameTransform WebGPUTransform.t :=
  Build_FrameTransform _ WebGPUTransform.constructor WebGPUTransform.init
    WebGPUTransform.transform WebGPUTransform.destroy.

(** Run a method on a stage object [s], allocating from [n]. *)
Definition run {T A} (c : M T A) (s : T) (n : handle) : Outcome T A :=
  c (mkMachine s n).

(** The pipeline calls [transform] once per arriving frame, in order. *)
Fixpoint feed {T} `{FrameTransform T} (fs : list (Platform * VideoFrame))
    : M T unit :=
  match fs with
  | [] => ret tt
  | (p, f) :: rest => ft_transform p f ;;; feed rest
  end.

(** The stages the pipeline can be built from. *)
Inductive Stage : Type :=
| StageWebGPU (s : WebGPUTransform.t)
| StageNull (s : NullTransform.t)
| StageDrop (s : DropTransform.t)
| StageDelay (s : DelayTransform.t)
| StageCrop (s : CropTransform.t).

Definition dispatch {T A} (inj : T -> Stage) (c : M T A) (s : T)
    : M Stage A :=
  fun m =>
    match run c s (next_handle m) with
    | mkOutcome (mkMachine s' n') evs r => mkOutcome (mkMachine (inj s') n') evs r
    end.

Definition stage_transform (p : Platform) (frame : VideoFrame)
    : M Stage unit :=
  fun m =>
    match this m with
    | StageWebGPU s => dispatch StageWebGPU (ft_transform p frame) s m
    | StageNull s => dispatch StageNull (ft_transform p frame) s m
    | StageDrop s => dispatch StageDrop (ft_transform p frame) s m
    | StageDelay s => dispatch StageDelay (ft_transform p frame) s m
    | StageCrop s => dispatch StageCrop (ft_transform p frame) s m
    end.

(** ** Observations on event logs *)

Definition is_close_of (h : handle) (e : Event) : bool :=
  match e with
  | EvFrameClose h' => Nat.eqb h' h
  | _ => false
  end.

Definition is_enqueue_of (h : handle) (e : Event) : bool :=
  match e with
  | EvEnqueue f => Nat.eqb (frame_handle f) h
  | _ => false
  end.

Definition is_configure (e : Event) : bool :=
  match e with
  | EvConfigure _ _ _ _ => true
  | _ => false
  end.

(** How often the frame with identity [h] was released by [close]. *)
Definition closes (h : handle) (evs : list Event) : nat :=
  List.length (filter (is_close_of h) evs).

(** How often the frame with identity [h] was handed to the sink. *)
Definition enqueues (h : handle) (evs : list Event) : nat :=
  List.length (filter (is_enqueue_of h) evs).

(** How often the presentation surface was configured. *)
Definition reconfigurations (evs : list Event) : nat :=
  List.length (filter is_configure evs).

(** All frames handed to the sink, in order. *)
Definition enqueued (evs : list Event) : list VideoFrame :=
  flat_map (fun e => match e with EvEnqueue f => [f] | _ => [] end) evs.

(** All render passes submitted to the device queue, in order. *)
Definition submitted (evs : list Event) : list RenderPass :=
  flat_map (fun e => match e with EvSubmit p => [p] | _ => [] end) evs.

(** ** Life cycle of the WebGPU stage *)

Module WebGPULife.
Import WebGPUTransform.

(** States of a stage object driven through its interface: constructed,
    then any number of [init], [transform] and [destroy] calls, each run to
    completion, whether it returns or throws.  The contract has [init]
    called once per stage; here [init] may be called again whenever the
    stage holds no device (new, failed to initialise, or destroyed). *)
Inductive reachable : t -> Prop :=
| reach_new : reachable constructor
| reach_init s p n :
    reachable s -> device_ s = None ->
    reachable (this (final (run (init p) s n)))
| reach_transform s p f n :
    reachable s -> reachable (this (final (run (transform p f) s n)))
| reach_destroy s n :
    reachable s -> reachable (this (final (run destroy s n))).

(** The stage can process frames: [init] acquired a device and [destroy]
    has not dropped it. *)
Definition ready (s : t) : Prop := device_ s <> None.

(** [init] did not get a graphics context, an adapter or a device. *)
Definition init_failed (p : Platform) : Prop :=
  getContext_gpupresent p = None \/ requestAdapter p = None
  \/ requestDevice p = None.

Definition the_buffer : GPUBuffer := mkBuffer 120 rectVerts.

(** Everything [transform] dereferences is present once a device is. *)
Definition consistent (s : t) : Prop :=
  device_ s <> None ->
  canvas_ s <> None /\ context_ s <> None
  /\ renderPipeline_ s = Some the_pipeline
  /\ verticesBuffer_ s = Some the_buffer
  /\ sampler_ s = Some the_sampler.

Definition canvas_size (s : t) : option (Z * Z) :=
  option_map (fun c => (canvas_width c, canvas_height c)) (canvas_ s).

Definition frame_size (f : VideoFrame) : Z * Z :=
  (displayWidth f, displayHeight f).
(** The events of [transform] on a stage that can process frames. *)
Definition configure_events (cv : OffscreenCanvas) (dev : GPUDevice)
    (f : VideoFrame) : list Event :=
  if dimensions_differ cv (displayWidth f) (displayHeight f)
  then [EvConfigure (displayWidth f) (displayHeight f) (Some dev)
                    swapChainFormat]
  else [].

Definition frame_pass (vb : option GPUBuffer) (f : VideoFrame) : RenderPass :=
  mkPass (displayWidth f, displayHeight f) the_pipeline vb
    (mkBindGroup the_sampler
       (mkView (displayWidth f) (displayHeight f) (Some (pixels f)))) 6.

Definition output_pixels (f : VideoFrame) : Pixels :=
  Rendered (displayWidth f) (displayHeight f) (pixels f).

Definition output_frame (n : handle) (f : VideoFrame) : VideoFrame :=
  mkFrame (S (S n)) (timestamp f) (displayWidth f) (displayHeight f)
    (mkRegion 0 0 (IZR (displayWidth f)) (IZR (displayHeight f)))
    (output_pixels f).

(** The pipeline feeds frames that all have the display size of [f]. *)
Definition same_sized (f : VideoFrame) (fs : list (Platform * VideoFrame))
    : Prop :=
  Forall (fun pf => frame_size (snd pf) = frame_size f) fs.

(** A call that is fatal: it does not return, it throws. *)
Definition fatal {A} (o : Outcome t A) : Prop :=
  exists e, completion o = Thrown e.
End WebGPULife.

Definition stage_reachable (stg : Stage) : Prop :=
  match stg with
  | StageWebGPU s => WebGPULife.reachable s
  | _ => True
  end.

(** ** What CropTransform computes *)

Module CropLife.
Import CropTransform.

(** [this.firstTimestamp_] once [transform] has seen a frame stamped [ts]. *)
Definition first_after (s : t) (ts : Z) : Z :=
  match firstTimestamp_ s with
  | Some v => if Z.eqb v 0 then ts else v
  | None => ts
  end.

(** The crop region requested for a frame when [e] microseconds have
    elapsed. *)
Definition crop_region (e : Z) (f : VideoFrame) : VideoFrameRegion :=
  mkRegion (crop_left (IZR e / 4000000) (width (visibleRegion f)))
           (crop_top (IZR e / 4000000) (height (visibleRegion f)))
           (width (visibleRegion f) / 2)
           (height (visibleRegion f) / 2).

Definition cropped (n : handle) (e : Z) (f : VideoFrame) : VideoFrame :=
  mkFrame n (timestamp f) (displayWidth f) (displayHeight f)
          (crop_region e f) (pixels f).

(** The crop regions of the frames handed to the sink, in order. *)
Definition regions (evs : list Event) : list VideoFrameRegion :=
  map visibleRegion (enqueued evs).

(** The regions the frames would get if each were cropped by the time
    elapsed since the frame stamped [t0]. *)
Definition regions_since (t0 : Z) (fs : list (Platform * VideoFrame))
    : list VideoFrameRegion :=
  map (fun pf => crop_region (timestamp (snd pf) - t0) (snd pf)) fs.
End CropLife.

(** ** Sample inputs *)

Module Samples.
Definition platform_ok : Platform :=
  mkPlatform 0.25 (Some (mkContext 0)) (Some (mkAdapter 0))
             (Some (mkDevice 0)).

Definition platform_no_adapter : Platform :=
  mkPlatform 0.75 (Some (mkContext 0)) None None.

Definition platform_no_context : Platform :=
  mkPlatform 0.5 None (Some (mkAdapter 0)) (Some (mkDevice 0)).

Definition frame (h : handle) (ts w h' : Z) : VideoFrame :=
  mkFrame h ts w h' (mkRegion 0 0 (IZR w) (IZR h')) (Decoded h).

Definition vga0 : VideoFrame := frame 0 0 640 480.
Definition vga1 : VideoFrame := frame 1 33333 640 480.
Definition vga2 : VideoFrame := frame 2 66667 640 480.
Definition vga_4s : VideoFrame := frame 1 4000000 640 480.

(** A stage whose [init] succeeded. *)
Definition ready_stage : WebGPUTransform.t :=
  this (final (run (WebGPUTransform.init platform_ok)
                   WebGPUTransform.constructor 0)).

(** A stage whose [init] found no adapter. *)
Definition disabled_stage : WebGPUTransform.t :=
  this (final (run (WebGPUTransform.init platform_no_adapter)
                   WebGPUTransform.constructor 0)).

(** The same picture as [vga0], delivered later as another frame object. *)
Definition vga0_again : VideoFrame :=
  mkFrame 7 99999 640 480 (mkRegion 0 0 640 480) (Decoded 0).

(** A stage that has already processed a frame. *)
Definition used_stage : WebGPUTransform.t :=
  this (final (run (WebGPUTransform.transform platform_ok vga1)
                   ready_stage 5)).
End Samples.

(** ** Further observations *)

(** How often the user was told that WebGPU is not supported. *)
Definition alerts (evs : list Event) : nat :=
  List.length
    (filter (fun e => match e with EvAlert _ => true | _ => false end) evs).

(** The identities of the frames released by [close], in order. *)
Definition closed (evs : list Event) : list handle :=
  flat_map (fun e => match e with EvFrameClose h => [h] | _ => [] end) evs.

(** The vertex buffers destroyed, in order. *)
Definition destroyed_buffers (evs : list Event) : list GPUBuffer :=
  flat_map (fun e => match e with EvBufferDestroy b => [b] | _ => [] end) evs.

Definition size_eqb (a b : Z * Z) : bool :=
  Z.eqb (fst a) (fst b) && Z.eqb (snd a) (snd b).

(** How often the size changes along [sizes], starting from [cur]. *)
Fixpoint size_changes (cur : Z * Z) (sizes : list (Z * Z)) : nat :=
  match sizes with
  | [] => 0
  | sz :: rest =>
      (if size_eqb cur sz then 0 else 1) + size_changes sz rest
  end.

(** The size of the last frame of [fs], or [cur] when there is none. *)
Definition last_size (cur : Z * Z) (fs : list (Platform * VideoFrame))
    : Z * Z :=
  last (map (fun pf => WebGPULife.frame_size (snd pf)) fs) cur.

(** Whether DropTransform lets the frame of this call through. *)
Definition passes (pf : Platform * VideoFrame) : bool :=
  if Rlt_dec (Math_random (fst pf)) 0.5 then true else false.

(** A vertex attribute of [attr_floats] 32-bit floats lies inside one
    vertex of [stride] bytes. *)
Definition attribute_fits (stride : Z) (a : VertexAttribute) : bool :=
  Z.leb 0 (attr_offset a)
  && Z.leb (attr_offset a + 4 * attr_floats a) stride.

(** ** Basic facts *)

Lemma bind_returned {Obj A B} (c : M Obj A) (k : A -> M Obj B) m m1 evs a :
  c m = mkOutcome m1 evs (Returned a) ->
  bind c k m =
  mkOutcome (final (k a m1)) (evs ++ events (k a m1)) (completion (k a m1)).
Proof.
  intros H. unfold bind. rewrite H. destruct (k a m1); reflexivity.
Qed.

Lemma bind_thrown {Obj A B} (c : M Obj A) (k : A -> M Obj B) m m1 evs e :
  c m = mkOutcome m1 evs (Thrown e) ->
  bind c k m = mkOutcome m1 evs (Thrown e).
Proof.
  intros H. unfold bind. rewrite H. reflexivity.
Qed.

Lemma closes_app h evs1 evs2 :
  closes h (evs1 ++ evs2) = closes h evs1 + closes h evs2.
Proof. unfold closes. rewrite filter_app, length_app. reflexivity. Qed.

Lemma enqueues_app h evs1 evs2 :
  enqueues h (evs1 ++ evs2) = enqueues h evs1 + enqueues h evs2.
Proof. unfold enqueues. rewrite filter_app, length_app. reflexivity. Qed.

Lemma reconfigurations_app evs1 evs2 :
  reconfigurations (evs1 ++ evs2) =
  reconfigurations evs1 + reconfigurations evs2.
Proof. unfold reconfigurations. rewrite filter_app, length_app. reflexivity. Qed.

Lemma enqueued_app evs1 evs2 :
  enqueued (evs1 ++ evs2) = enqueued evs1 ++ enqueued evs2.
Proof. unfold enqueued. apply flat_map_app. Qed.

Section WebGPUFacts.
Import WebGPUTransform WebGPULife.

Lemma transform_disabled p f s n :
  device_ s = None \/ canvas_ s = None ->
  run (transform p f) s n =
  mkOutcome (mkMachine s n) [EvFrameClose (frame_handle f)] (Returned tt).
Proof.
  intros H. unfold run, transform, bind at 1, get_this.
  cbn [this].
  destruct (device_ s), (canvas_ s); try reflexivity;
    destruct H; discriminate.
Qed.

Lemma dimensions_differ_false c w h :
  dimensions_differ c w h = false <->
  (canvas_width c, canvas_height c) = (w, h).
Proof.
  unfold dimensions_differ. rewrite orb_false_iff, !negb_false_iff, !Z.eqb_eq.
  split; [intros [-> ->]; reflexivity | intros E; inversion E; auto].
Qed.

Lemma dimensions_differ_true c w h :
  dimensions_differ c w h = true <->
  (canvas_width c, canvas_height c) <> (w, h).
Proof.
  rewrite <- dimensions_differ_false.
  destruct (dimensions_differ c w h); split; congruence.
Qed.

Lemma transform_ready p f n cv ctx dev vb dbg :
  run (transform p f)
      (mk (Some cv) (Some ctx) (Some dev) (Some the_pipeline) vb
          (Some the_sampler) dbg) n =
  mkOutcome
    (mkMachine
       (mk (Some (mkCanvas (displayWidth f) (displayHeight f)
                           (Some (output_pixels f))))
           (Some ctx) (Some dev) (Some the_pipeline) vb
           (Some the_sampler) dbg)
       (3 + n))
    (configure_events cv dev f ++
     [EvBitmapClose (S n); EvFrameClose (frame_handle f);
      EvSubmit (frame_pass vb f); EvEnqueue (output_frame n f);
      EvTextureDestroy n])
    (Returned tt).
Proof.
  unfold configure_events.
  destruct (dimensions_differ cv (displayWidth f) (displayHeight f)) eqn:E.
  - unfold run, transform, bind at 1, get_this. cbn [this device_ canvas_].
    rewrite E. reflexivity.
  - unfold run, transform, bind at 1, get_this. cbn [this device_ canvas_].
    rewrite E. apply dimensions_differ_false in E. destruct cv as [cw ch cc].
    cbn in E. inversion E; subst. reflexivity.
Qed.

Lemma init_ok p s n c a d :
  getContext_gpupresent p = Some c -> requestAdapter p = Some a ->
  requestDevice p = Some d ->
  run (init p) s n =
  mkOutcome
    (mkMachine
       (mk (Some (mkCanvas 1 1 None)) (Some c) (Some d) (Some the_pipeline)
           (Some the_buffer) (Some the_sampler) (debugPath_ s)) n)
    [EvLog "[WebGPUTransform] Initializing WebGPU."]
    (Returned tt).
Proof.
  destruct p as [r gc ra rd]. destruct s. cbn. intros -> -> ->. reflexivity.
Qed.

Lemma init_failed_run p s n :
  init_failed p -> device_ s = None ->
  run (init p) s n =
  mkOutcome
    (mkMachine
       (mk (Some (mkCanvas 1 1 None)) (getContext_gpupresent p) None
           (renderPipeline_ s) (verticesBuffer_ s) (sampler_ s)
           (debugPath_ s)) n)
    [EvLog "[WebGPUTransform] Initializing WebGPU.";
     EvAlert not_supported_message]
    (Returned tt).
Proof.
  destruct s. destruct p as [r [c|] [a|] [d|]]; cbn;
    intros [H | [H | H]] ->; try discriminate; reflexivity.
Qed.

Lemma init_cases p :
  init_failed p \/
  exists c a d, getContext_gpupresent p = Some c /\ requestAdapter p = Some a
                /\ requestDevice p = Some d.
Proof.
  unfold init_failed.
  destruct (getContext_gpupresent p) as [c|]; [|auto].
  destruct (requestAdapter p) as [a|]; [|auto].
  destruct (requestDevice p) as [d|]; [|auto].
  right. exists c, a, d. auto.
Qed.

Lemma destroy_with_buffer s n b :
  verticesBuffer_ s = Some b ->
  run destroy s n =
  mkOutcome (mkMachine (set_device_ None s) n)
    [EvLog "[WebGPUTransform] Freeing all WebGPU resources.";
     EvBufferDestroy b]
    (Returned tt).
Proof.
  intros H. unfold run, destroy, field, assign, bind, get_this, set_this,
    emit, deref. cbn. rewrite H. reflexivity.
Qed.

Lemma destroy_without_buffer s n :
  verticesBuffer_ s = None ->
  run destroy s n =
  mkOutcome (mkMachine s n)
    [EvLog "[WebGPUTransform] Freeing all WebGPU resources."]
    (Thrown (TypeError "verticesBuffer_")).
Proof.
  intros H. unfold run, destroy, field, assign, bind, get_this, set_this,
    emit, deref. cbn. rewrite H. reflexivity.
Qed.

Lemma consistent_shape s :
  consistent s -> ready s ->
  exists cv ctx dev,
    s = mk (Some cv) (Some ctx) (Some dev) (Some the_pipeline)
           (Some the_buffer) (Some the_sampler) (debugPath_ s).
Proof.
  intros C R. destruct (C R) as (Hc & Hx & Hp & Hv & Hs).
  destruct s as [[cv|] [ctx|] [dev|] pl vb sm dbg]; cbn in *;
    try congruence; try (exfalso; apply R; reflexivity).
  subst. eauto.
Qed.

Lemma reachable_consistent s : reachable s -> consistent s.
Proof.
  induction 1 as [ | s p n H IH D | s p f n H IH | s n H IH ].
  - intros R. exfalso. apply R. reflexivity.
  - destruct (init_cases p) as [F | (c & a & d & Hc & Ha & Hd)].
    + rewrite init_failed_run by assumption. cbn.
      intros R. exfalso. apply R. reflexivity.
    + rewrite (init_ok p s n c a d Hc Ha Hd). cbn.
      intros _. cbn. repeat split; congruence.
  - destruct (device_ s) as [dev|] eqn:D.
    + assert (R : ready s) by (unfold ready; congruence).
      destruct (consistent_shape s IH R) as (cv & ctx & dev' & E).
      rewrite E, transform_ready. cbn.
      intros _. cbn. repeat split; congruence.
    + rewrite transform_disabled by auto. exact IH.
  - destruct (verticesBuffer_ s) as [b|] eqn:V.
    + rewrite (destroy_with_buffer s n b V). cbn.
      intros R. exfalso. apply R. reflexivity.
    + rewrite destroy_without_buffer by assumption. exact IH.
Qed.

(** A stage either can process frames or drops every frame. *)
Lemma ready_dec s : {ready s} + {device_ s = None}.
Proof.
  unfold ready. destruct (device_ s); [left; discriminate | right; reflexivity].
Qed.

Lemma feed_disabled fs s n :
  device_ s = None ->
  run (feed fs) s n =
  mkOutcome (mkMachine s n)
    (map (fun pf => EvFrameClose (frame_handle (snd pf))) fs)
    (Returned tt).
Proof.
  intros D. induction fs as [|[p f] fs IH]; [reflexivity|].
  unfold run in *. cbn [feed ft_transform WebGPUTransform_ft].
  pose proof (transform_disabled p f s n (or_introl D)) as T. unfold run in T.
  rewrite (bind_returned _ _ _ _ _ _ T), IH. reflexivity.
Qed.

End WebGPUFacts.

Section WebGPUClaims.
Import WebGPUTransform WebGPULife.

Lemma ready_stage_eq :
  Samples.ready_stage =
  mk (Some (mkCanvas 1 1 None)) (Some (mkContext 0)) (Some (mkDevice 0))
     (Some the_pipeline) (Some the_buffer) (Some the_sampler)
     "debug.pipeline.frameTransform_".
Proof. reflexivity. Qed.

Lemma disabled_stage_eq :
  Samples.disabled_stage =
  mk (Some (mkCanvas 1 1 None)) (Some (mkContext 0)) None None None None
     "debug.pipeline.frameTransform_".
Proof. reflexivity. Qed.

Lemma ready_stage_reachable : reachable Samples.ready_stage.
Proof.
  exact (reach_init WebGPUTransform.constructor Samples.platform_ok 0
           reach_new eq_refl).
Qed.

Lemma disabled_stage_reachable : reachable Samples.disabled_stage.
Proof.
  exact (reach_init WebGPUTransform.constructor Samples.platform_no_adapter 0
           reach_new eq_refl).
Qed.

Lemma ready_stage_ready : ready Samples.ready_stage.
Proof. rewrite ready_stage_eq. unfold ready. cbn. discriminate. Qed.

(** A reachable stage without a vertex buffer has no device either. *)
Lemma no_buffer_no_device s :
  reachable s -> verticesBuffer_ s = None -> device_ s = None.
Proof.
  intros H V. destruct (ready_dec s) as [R | D]; [|exact D].
  destruct (reachable_consistent s H R) as (_ & _ & _ & B & _). congruence.
Qed.

Lemma destroyed_has_no_device s n :
  reachable s -> device_ (this (final (run destroy s n))) = None.
Proof.
  intros H. destruct (verticesBuffer_ s) as [b|] eqn:V.
  - rewrite (destroy_with_buffer s n b V). reflexivity.
  - rewrite (destroy_without_buffer s n V). cbn.
    apply no_buffer_no_device; assumption.
Qed.

(** On a stage that can process frames, [destroy] returns, releases the
    vertex buffer and drops the device. *)
Lemma destroy_ready s n :
  reachable s -> ready s ->
  let o := run destroy s n in
  completion o = Returned tt
  /\ In (EvBufferDestroy the_buffer) (events o)
  /\ device_ (this (final o)) = None.
Proof.
  intros H R.
  destruct (reachable_consistent s H R) as (_ & _ & _ & B & _).
  cbv zeta. rewrite (destroy_with_buffer s n the_buffer B). cbn.
  repeat split. right. left. reflexivity.
Qed.

(** Why the life cycle lets [init] run only on a stage without a device: a
    second [init] on a live stage that finds no graphics context leaves the
    old device in place with [context_] null, and the next [transform] throws
    in [setSize] before it has closed or enqueued the frame. *)
Lemma second_init_on_live_stage :
  run (transform Samples.platform_ok Samples.vga0)
      (this (final (run (init Samples.platform_no_context)
                        Samples.ready_stage 0))) 1
  = mkOutcome
      (mkMachine
         (mk (Some (mkCanvas 640 480 None)) None (Some (mkDevice 0))
             (Some the_pipeline) (Some the_buffer) (Some the_sampler)
             "debug.pipeline.frameTransform_") 1)
      [] (Thrown (TypeError "context_")).
Proof. reflexivity. Qed.

(** C10: [transform] on a newly constructed stage, before any [init]: the
    constructor leaves the device and the canvas null, so the call takes
    the disabled branch, closes the input frame exactly once, enqueues
    nothing, leaves the stage as it was and returns without throwing. *)
Theorem transform_before_init p f n :
  let o := run (transform p f) constructor n in
  device_ constructor = None /\ canvas_ constructor = None
  /\ completion o = Returned tt
  /\ events o = [EvFrameClose (frame_handle f)]
  /\ closes (frame_handle f) (events o) = 1
  /\ enqueued (events o) = []
  /\ final o = mkMachine constructor n.
Proof.
  cbv zeta.
  rewrite (transform_disabled p f constructor n (or_introl eq_refl)).
  cbn. unfold closes. cbn. rewrite Nat.eqb_refl. repeat split.
Qed.

(** C3: when [init] got no graphics context, no adapter or no device,
    every later [transform] call returns after closing its input frame,
    and nothing is ever enqueued to the sink. *)
Theorem init_failure_drops_every_frame p n fs n' :
  init_failed p ->
  let s := this (final (run (init p) constructor n)) in
  let o := run (feed fs) s n' in
  completion o = Returned tt
  /\ events o = map (fun pf => EvFrameClose (frame_handle (snd pf))) fs
  /\ enqueued (events o) = []
  /\ this (final o) = s.
Proof.
  intros F. cbv zeta. rewrite (init_failed_run p constructor n F eq_refl).
  cbn [this final].
  rewrite feed_disabled by reflexivity. cbn [completion events final this].
  repeat split.
  induction fs as [|pf fs IH]; [reflexivity | exact IH].
Qed.

Lemma init_failure_drops_every_frame_witness :
  init_failed Samples.platform_no_adapter
  /\ enqueued (events (run (feed [(Samples.platform_ok, Samples.vga0);
                                  (Samples.platform_ok, Samples.vga1)])
                           Samples.disabled_stage 2)) = [].
Proof.
  assert (F : init_failed Samples.platform_no_adapter)
    by (right; left; reflexivity).
  split; [exact F|].
  exact (proj1 (proj2 (proj2
    (init_failure_drops_every_frame Samples.platform_no_adapter 0
       [(Samples.platform_ok, Samples.vga0);
        (Samples.platform_ok, Samples.vga1)] 2 F)))).
Defined.

(** C2, as claimed, fails: after [init] succeeded and [destroy] ran, a
    [transform] call is not fatal. *)
Lemma transform_after_destroy_not_fatal :
  reachable Samples.ready_stage
  /\ ~ fatal (run (transform Samples.platform_ok Samples.vga0)
                  (this (final (run destroy Samples.ready_stage 0))) 0).
Proof.
  split; [exact ready_stage_reachable|].
  intros [e H].
  rewrite transform_disabled in H
    by (left; apply destroyed_has_no_device; exact ready_stage_reachable).
  discriminate H.
Qed.

(** C2, amended: a [transform] call after [destroy] takes the disabled
    branch: it closes the input frame, enqueues nothing, leaves the stage
    unchanged and returns normally. *)
Theorem transform_after_destroy_drops s n p f n' :
  reachable s ->
  let s' := this (final (run destroy s n)) in
  run (transform p f) s' n' =
  mkOutcome (mkMachine s' n') [EvFrameClose (frame_handle f)] (Returned tt).
Proof.
  intros H. cbv zeta. apply transform_disabled. left.
  apply destroyed_has_no_device. exact H.
Qed.

Lemma transform_after_destroy_drops_witness :
  reachable Samples.ready_stage
  /\ completion (run (transform Samples.platform_ok Samples.vga0)
                     (this (final (run destroy Samples.ready_stage 0))) 5)
     = Returned tt.
Proof.
  split; [exact (reach_init WebGPUTransform.constructor Samples.platform_ok 0
                   reach_new eq_refl)|].
  exact (f_equal completion
    (transform_after_destroy_drops Samples.ready_stage 0
       Samples.platform_ok Samples.vga0 5
       (reach_init WebGPUTransform.constructor Samples.platform_ok 0
          reach_new eq_refl))).
Defined.

(** C6 fails on the code: on a stage whose [init] found no adapter (a
    reachable state with no vertex buffer), [destroy] throws a TypeError
    at [this.verticesBuffer_.destroy()] and releases nothing. *)
Theorem destroy_throws_when_disabled :
  reachable Samples.disabled_stage
  /\ run destroy Samples.disabled_stage 0 =
     mkOutcome (mkMachine Samples.disabled_stage 0)
       [EvLog "[WebGPUTransform] Freeing all WebGPU resources."]
       (Thrown (TypeError "verticesBuffer_")).
Proof.
  split; [exact disabled_stage_reachable|].
  apply destroy_without_buffer. reflexivity.
Qed.

(** The same on every reachable stage that cannot process frames after a
    failed [init]. *)
Lemma destroy_throws_after_failed_init p n n' :
  init_failed p ->
  completion (run destroy (this (final (run (init p) constructor n))) n')
  = Thrown (TypeError "verticesBuffer_").
Proof.
  intros F. rewrite (init_failed_run p constructor n F eq_refl).
  cbn [this final].
  rewrite destroy_without_buffer by reflexivity. reflexivity.
Qed.

End WebGPUClaims.

Section SurfaceSize.
Import WebGPUTransform WebGPULife.

Lemma configure_events_count cv dev f :
  reconfigurations (configure_events cv dev f) =
  if dimensions_differ cv (displayWidth f) (displayHeight f) then 1 else 0.
Proof.
  unfold configure_events.
  destruct (dimensions_differ cv (displayWidth f) (displayHeight f));
    reflexivity.
Qed.

Lemma transform_reconfigurations p f n cv ctx dev vb dbg :
  reconfigurations
    (events (run (transform p f)
                 (mk (Some cv) (Some ctx) (Some dev) (Some the_pipeline) vb
                     (Some the_sampler) dbg) n)) =
  if dimensions_differ cv (displayWidth f) (displayHeight f) then 1 else 0.
Proof.
  rewrite transform_ready. cbn [events].
  rewrite reconfigurations_app, configure_events_count.
  cbn. apply Nat.add_0_r.
Qed.

(** Frames of the configured size never reconfigure the surface. *)
Lemma feed_same_size f fs :
  same_sized f fs ->
  forall n cv ctx dev vb dbg,
    (canvas_width cv, canvas_height cv) = frame_size f ->
    let o := run (feed fs)
                 (mk (Some cv) (Some ctx) (Some dev) (Some the_pipeline) vb
                     (Some the_sampler) dbg) n in
    reconfigurations (events o) = 0 /\ completion o = Returned tt.
Proof.
  induction 1 as [|[q g] fs Hg Hfs IH]; intros n cv ctx dev vb dbg Hcv.
  - split; reflexivity.
  - cbv zeta. unfold run. cbn [feed ft_transform WebGPUTransform_ft].
    rewrite (bind_returned _ _ _ _ _ _
               (transform_ready q g n cv ctx dev vb dbg)).
    cbn [snd] in Hg.
    specialize (IH (3 + n)
                   (mkCanvas (displayWidth g) (displayHeight g)
                             (Some (output_pixels g)))
                   ctx dev vb dbg Hg).
    cbv zeta in IH. unfold run in IH. destruct IH as [IH1 IH2].
    cbn [events completion]. split; [|exact IH2].
    rewrite !reconfigurations_app, configure_events_count, IH1.
    rewrite <- Hg in Hcv. unfold frame_size in Hcv.
    apply dimensions_differ_false in Hcv. rewrite Hcv. reflexivity.
Qed.

Lemma reconfigurations_closes fs :
  reconfigurations
    (map (fun pf : Platform * VideoFrame =>
            EvFrameClose (frame_handle (snd pf))) fs) = 0.
Proof. induction fs as [|pf fs IH]; [reflexivity | exact IH]. Qed.

(** C4: on a stage that holds a device, [transform] configures the
    surface exactly when the frame's display size differs from the canvas
    size, and not at all otherwise; afterwards the canvas has the frame's
    size.  Over a run of same-sized frames only the first can configure
    the surface: at most one configuration in total, none for the later
    frames. *)
Theorem reconfigure_iff_size_changes s p f n fs n' :
  reachable s -> same_sized f fs ->
  let o := run (transform p f) s n in
  (ready s ->
   (reconfigurations (events o) = 1 <->
    canvas_size s <> Some (frame_size f))
   /\ (reconfigurations (events o) = 0 <->
       canvas_size s = Some (frame_size f))
   /\ canvas_size (this (final o)) = Some (frame_size f))
  /\ reconfigurations (events (run (feed fs) (this (final o)) n')) = 0
  /\ reconfigurations (events (run (feed ((p, f) :: fs)) s n)) <= 1.
Proof.
  intros H Hfs. cbv zeta.
  destruct (ready_dec s) as [R | D].
  - destruct (consistent_shape s (reachable_consistent s H) R)
      as (cv & ctx & dev & E).
    rewrite E.
    pose proof (transform_ready p f n cv ctx dev (Some the_buffer)
                  (debugPath_ s)) as T.
    pose proof (transform_reconfigurations p f n cv ctx dev
                  (Some the_buffer) (debugPath_ s)) as C.
    rewrite C. rewrite T. cbn [final this events].
    unfold canvas_size at 1 2. cbn [canvas_ option_map].
    assert (S1 : Some (canvas_width cv, canvas_height cv)
                 = Some (frame_size f)
                 <-> dimensions_differ cv (displayWidth f) (displayHeight f)
                     = false).
    { rewrite dimensions_differ_false. unfold frame_size.
      split; [intros X; inversion X; reflexivity | intros ->; reflexivity]. }
    pose proof (feed_same_size f fs Hfs) as F.
    split; [intros _; split; [|split]|split].
    + split.
      * intros X Y. apply S1 in Y. rewrite Y in X. discriminate.
      * intros X.
        destruct (dimensions_differ cv (displayWidth f) (displayHeight f));
          [reflexivity|]. exfalso. apply X. apply S1. reflexivity.
    + split.
      * intros X. apply S1.
        destruct (dimensions_differ cv (displayWidth f) (displayHeight f));
          [discriminate | reflexivity].
      * intros X. apply S1 in X. rewrite X. reflexivity.
    + reflexivity.
    + apply (F n' _ ctx dev (Some the_buffer) (debugPath_ s)). reflexivity.
    + unfold run. cbn [feed ft_transform WebGPUTransform_ft].
      unfold run in T. rewrite (bind_returned _ _ _ _ _ _ T).
      cbn [events]. rewrite !reconfigurations_app, configure_events_count.
      destruct (F (3 + n) (mkCanvas (displayWidth f) (displayHeight f)
                                    (Some (output_pixels f)))
                  ctx dev (Some the_buffer) (debugPath_ s) eq_refl)
        as [F1 _].
      unfold run in F1. rewrite F1.
      destruct (dimensions_differ cv (displayWidth f) (displayHeight f));
        cbn; lia.
  - split; [intros R; exfalso; exact (R D)|].
    rewrite (transform_disabled p f s n (or_introl D)). cbn [final this].
    rewrite !feed_disabled by exact D. cbn [events].
    rewrite !reconfigurations_closes. split; [reflexivity | lia].
Qed.

Lemma reconfigure_iff_size_changes_witness :
  reachable Samples.ready_stage
  /\ same_sized Samples.vga0 [(Samples.platform_ok, Samples.vga1);
                              (Samples.platform_ok, Samples.vga2)]
  /\ reconfigurations
       (events (run (feed [(Samples.platform_ok, Samples.vga0);
                           (Samples.platform_ok, Samples.vga1);
                           (Samples.platform_ok, Samples.vga2)])
                    Samples.ready_stage 3)) <= 1.
Proof.
  assert (H : reachable Samples.ready_stage)
    by exact (reach_init WebGPUTransform.constructor Samples.platform_ok 0
                reach_new eq_refl).
  assert (Q : same_sized Samples.vga0 [(Samples.platform_ok, Samples.vga1);
                                       (Samples.platform_ok, Samples.vga2)])
    by (repeat constructor).
  split; [exact H | split; [exact Q|]].
  exact (proj2 (proj2
    (reconfigure_iff_size_changes Samples.ready_stage Samples.platform_ok
       Samples.vga0 3 _ 0 H Q))).
Defined.

(** The scenario of the specification: three 640x480 frames on a newly
    initialised stage configure the surface exactly once, on the first
    frame; a 320x240 frame after that configures it again. *)
Lemma scenario_reconfigured_once :
  reconfigurations
    (events (run (feed [(Samples.platform_ok, Samples.vga0);
                        (Samples.platform_ok, Samples.vga1);
                        (Samples.platform_ok, Samples.vga2)])
                 Samples.ready_stage 3)) = 1
  /\ reconfigurations
       (events (run (feed [(Samples.platform_ok, Samples.vga0);
                           (Samples.platform_ok,
                            Samples.frame 1 33333 320 240)])
                    Samples.ready_stage 3)) = 2.
Proof.
  rewrite ready_stage_eq. unfold run.
  cbn [feed ft_transform WebGPUTransform_ft].
  split.
  - repeat (rewrite (bind_returned _ _ _ _ _ _ (transform_ready _ _ _ _ _ _ _ _));
            cbn [final events completion]).
    cbn [ret events]. rewrite !reconfigurations_app.
    reflexivity.
  - repeat (rewrite (bind_returned _ _ _ _ _ _ (transform_ready _ _ _ _ _ _ _ _));
            cbn [final events completion]).
    cbn [ret events]. rewrite !reconfigurations_app.
    reflexivity.
Qed.

End SurfaceSize.

Section StageContract.
Import WebGPULife.
Import WebGPUTransform (dimensions_differ).

Lemma dispatch_events {T} (inj : T -> Stage) (c : M T unit) s m :
  events (dispatch inj c s m) = events (run c s (next_handle m))
  /\ completion (dispatch inj c s m) = completion (run c s (next_handle m)).
Proof.
  unfold dispatch. destruct (run c s (next_handle m)) as [[s' n'] evs r].
  split; reflexivity.
Qed.

Lemma crop_transform_run p f s n :
  run (CropTransform.transform p f) s n =
  mkOutcome
    (mkMachine (CropTransform.mk
                  (Some (CropLife.first_after s (timestamp f)))) (S n))
    [EvFrameClose (frame_handle f);
     EvEnqueue (CropLife.cropped n
                  (timestamp f - CropLife.first_after s (timestamp f)) f)]
    (Returned tt).
Proof.
  destruct s as [[v|]]; unfold CropLife.first_after; cbn;
    [destruct (Z.eqb v 0)|]; reflexivity.
Qed.

Lemma drop_transform_run p f s n :
  run (DropTransform.transform p f) s n =
  mkOutcome (mkMachine s n)
    [if Rlt_dec (Math_random p) 0.5
     then EvEnqueue f else EvFrameClose (frame_handle f)]
    (Returned tt).
Proof.
  unfold run, DropTransform.transform.
  destruct (Rlt_dec (Math_random p) 0.5); reflexivity.
Qed.

Lemma closes_configure cv dev f h :
  closes h (configure_events cv dev f) = 0
  /\ enqueues h (configure_events cv dev f) = 0
  /\ enqueued (configure_events cv dev f) = [].
Proof.
  unfold configure_events.
  destruct (dimensions_differ cv (displayWidth f) (displayHeight f));
    repeat split.
Qed.

Lemma eqb_fresh h m : h < m -> Nat.eqb m h = false.
Proof. intros L. apply Nat.eqb_neq. lia. Qed.

(** C1: for every stage and every input frame (an object that exists when
    the call starts, so that frames created during the call are other
    objects), when [transform] returns the input frame has either been closed
    exactly once and not enqueued, or enqueued exactly once and not closed;
    the call returns on every path, the disabled path of the WebGPU stage
    included. *)
Theorem frame_consumed_exactly_once stg p f n :
  stage_reachable stg -> frame_handle f < n ->
  let o := run (stage_transform p f) stg n in
  completion o = Returned tt
  /\ ((closes (frame_handle f) (events o) = 1
       /\ enqueues (frame_handle f) (events o) = 0)
      \/ (closes (frame_handle f) (events o) = 0
          /\ enqueues (frame_handle f) (events o) = 1)).
Proof.
  intros H L. cbv zeta. unfold run, stage_transform. cbn [this].
  destruct stg as [s | s | s | s | s];
    match goal with
    | |- context [dispatch ?i ?c ?s ?m] =>
        destruct (dispatch_events i c s m) as [-> ->]
    end; cbn [next_handle ft_transform WebGPUTransform_ft NullTransform_ft
              DropTransform_ft DelayTransform_ft CropTransform_ft].
  - (* WebGPUTransform *)
    cbn in H. destruct (ready_dec s) as [R | D].
    + destruct (consistent_shape s (reachable_consistent s H) R)
        as (cv & ctx & dev & E).
      rewrite E, transform_ready. cbn [completion events].
      destruct (closes_configure cv dev f (frame_handle f))
        as (C1 & C2 & C3).
      rewrite closes_app, enqueues_app, C1, C2.
      unfold closes, enqueues. cbn -[Nat.eqb].
      rewrite Nat.eqb_refl, (eqb_fresh (frame_handle f) (S (S n))) by lia.
      repeat split; auto.
    + rewrite transform_disabled by auto. cbn [completion events].
      unfold closes, enqueues. cbn -[Nat.eqb]. rewrite Nat.eqb_refl.
      repeat split; auto.
  - (* NullTransform *)
    unfold closes, enqueues. cbn -[Nat.eqb]. rewrite Nat.eqb_refl.
    repeat split; auto.
  - (* DropTransform *)
    rewrite drop_transform_run. cbn [completion events].
    unfold closes, enqueues.
    destruct (Rlt_dec (Math_random p) 0.5); cbn -[Nat.eqb]; rewrite Nat.eqb_refl;
      repeat split; auto.
  - (* DelayTransform *)
    unfold closes, enqueues. cbn -[Nat.eqb]. rewrite Nat.eqb_refl.
    repeat split; auto.
  - (* CropTransform *)
    rewrite crop_transform_run. cbn [completion events].
    unfold closes, enqueues. cbn -[Nat.eqb].
    rewrite Nat.eqb_refl, (eqb_fresh (frame_handle f) n) by lia.
    repeat split; auto.
Qed.

Lemma frame_consumed_exactly_once_witness :
  stage_reachable (StageWebGPU Samples.ready_stage)
  /\ frame_handle Samples.vga0 < 1
  /\ completion (run (stage_transform Samples.platform_ok Samples.vga0)
                     (StageWebGPU Samples.ready_stage) 1) = Returned tt.
Proof.
  assert (H : stage_reachable (StageWebGPU Samples.ready_stage))
    by exact (reach_init WebGPUTransform.constructor Samples.platform_ok 0
                reach_new eq_refl).
  assert (L : frame_handle Samples.vga0 < 1) by (cbn; lia).
  split; [exact H | split; [exact L|]].
  exact (proj1 (frame_consumed_exactly_once
                  (StageWebGPU Samples.ready_stage) Samples.platform_ok
                  Samples.vga0 1 H L)).
Defined.

(** Every frame enqueued by one [transform] call of any stage carries the
    input's timestamp. *)
Lemma stage_transform_timestamps stg p f n :
  stage_reachable stg ->
  Forall (fun g => timestamp g = timestamp f)
         (enqueued (events (run (stage_transform p f) stg n))).
Proof.
  intros H. unfold run, stage_transform. cbn [this].
  destruct stg as [s | s | s | s | s];
    match goal with
    | |- context [dispatch ?i ?c ?s ?m] =>
        destruct (dispatch_events i c s m) as [-> _]
    end; cbn [next_handle ft_transform WebGPUTransform_ft NullTransform_ft
              DropTransform_ft DelayTransform_ft CropTransform_ft].
  - cbn in H. destruct (ready_dec s) as [R | D].
    + destruct (consistent_shape s (reachable_consistent s H) R)
        as (cv & ctx & dev & E).
      rewrite E, transform_ready. cbn [events].
      destruct (closes_configure cv dev f 0) as (_ & _ & C).
      rewrite enqueued_app, C. cbn. auto.
    + rewrite transform_disabled by auto. cbn. auto.
  - cbn. auto.
  - rewrite drop_transform_run. cbn [events].
    destruct (Rlt_dec (Math_random p) 0.5); cbn; auto.
  - cbn. auto.
  - rewrite crop_transform_run. cbn. auto.
Qed.

(** C5: every frame a stage enqueues while transforming an input frame
    carries the input frame's timestamp. *)
Theorem enqueued_timestamp_preserved stg p f n g :
  stage_reachable stg ->
  In g (enqueued (events (run (stage_transform p f) stg n))) ->
  timestamp g = timestamp f.
Proof.
  intros H I.
  pose proof (stage_transform_timestamps stg p f n H) as F.
  rewrite Forall_forall in F. apply F. exact I.
Qed.

Lemma enqueued_timestamp_preserved_witness :
  stage_reachable (StageNull NullTransform.constructor)
  /\ In Samples.vga1
        (enqueued (events (run (stage_transform Samples.platform_ok
                                  Samples.vga1)
                               (StageNull NullTransform.constructor) 2)))
  /\ timestamp Samples.vga1 = timestamp Samples.vga1.
Proof.
  assert (H : stage_reachable (StageNull NullTransform.constructor))
    by exact I.
  assert (E : In Samples.vga1
        (enqueued (events (run (stage_transform Samples.platform_ok
                                  Samples.vga1)
                               (StageNull NullTransform.constructor) 2))))
    by (left; reflexivity).
  split; [exact H | split; [exact E|]].
  exact (enqueued_timestamp_preserved
           (StageNull NullTransform.constructor) Samples.platform_ok
           Samples.vga1 2 Samples.vga1 H E).
Defined.

(** The WebGPU stage does enqueue a frame for every frame it processes,
    stamped with the input's timestamp. *)
Lemma webgpu_output_timestamp p f n cv ctx dev vb dbg :
  enqueued (events (run (WebGPUTransform.transform p f)
              (WebGPUTransform.mk (Some cv) (Some ctx) (Some dev)
                 (Some WebGPUTransform.the_pipeline) vb
                 (Some WebGPUTransform.the_sampler) dbg) n))
  = [output_frame n f]
  /\ timestamp (output_frame n f) = timestamp f.
Proof.
  rewrite transform_ready. cbn [events].
  destruct (closes_configure cv dev f 0) as (_ & _ & C).
  rewrite enqueued_app, C. split; reflexivity.
Qed.

End StageContract.

Section CropClaims.
Import CropTransform CropLife.

Lemma crop_feed_cons p f fs s n :
  run (feed ((p, f) :: fs)) s n =
  let o := run (feed fs) (mk (Some (first_after s (timestamp f)))) (S n) in
  mkOutcome (final o)
    ([EvFrameClose (frame_handle f);
      EvEnqueue (cropped n (timestamp f - first_after s (timestamp f)) f)]
     ++ events o)
    (completion o).
Proof.
  unfold run. cbn [feed ft_transform CropTransform_ft].
  pose proof (crop_transform_run p f s n) as T. unfold run in T.
  rewrite (bind_returned _ _ _ _ _ _ T). reflexivity.
Qed.

(** Once [firstTimestamp_] holds a non-zero timestamp it is kept, and every
    later frame is cropped by the time elapsed since it. *)
Lemma crop_regions_since t0 fs :
  t0 <> 0%Z ->
  forall n,
    regions (events (run (feed fs) (mk (Some t0)) n)) = regions_since t0 fs.
Proof.
  intros Ht. induction fs as [|[p f] fs IH]; intros n; [reflexivity|].
  rewrite crop_feed_cons. cbv zeta. cbn [events].
  assert (F : first_after (mk (Some t0)) (timestamp f) = t0).
  { unfold first_after. cbn. destruct (Z.eqb_spec t0 0); congruence. }
  rewrite F. unfold regions in *. rewrite enqueued_app. cbn.
  rewrite IH. reflexivity.
Qed.

(** When the first frame's timestamp is not zero, every frame is cropped
    by the time elapsed since the first frame. *)
Lemma crop_regions_first_nonzero p f fs n :
  timestamp f <> 0%Z ->
  regions (events (run (feed ((p, f) :: fs)) constructor n)) =
  regions_since (timestamp f) ((p, f) :: fs).
Proof.
  intros Ht. rewrite crop_feed_cons. cbv zeta. cbn [events].
  unfold regions. rewrite enqueued_app. cbn.
  pose proof (crop_regions_since (timestamp f) fs Ht (S n)) as C.
  unfold regions in C. rewrite C. reflexivity.
Qed.

Lemma crop_left_at_0 w : crop_left (IZR 0 / 4000000) w = (w / 4)%R.
Proof.
  unfold crop_left. replace (PI / 2 * (0 / 4000000))%R with 0%R by lra.
  rewrite sin_0. lra.
Qed.

Lemma crop_left_at_4s w : crop_left (IZR 4000000 / 4000000) w = (w / 2)%R.
Proof.
  unfold crop_left.
  replace (PI / 2 * (4000000 / 4000000))%R with (PI / 2)%R by lra.
  rewrite sin_PI2. lra.
Qed.

(** C7 fails on the code: when the first frame is stamped 0,
    [!this.firstTimestamp_] is true again on the second frame, so the
    second frame (stamped 4000000) resets the reference timestamp and is
    cropped as if no time had elapsed: its region starts at a quarter of
    the width, where the elapsed time since the first frame puts it at
    half the width. *)
Theorem crop_elapsed_restarts_after_zero :
  let fs := [(Samples.platform_ok, Samples.vga0);
             (Samples.platform_ok, Samples.vga_4s)] in
  let o := run (feed fs) constructor 2 in
  regions (events o) =
    [crop_region 0 Samples.vga0; crop_region 0 Samples.vga_4s]
  /\ left (crop_region 0 Samples.vga_4s) = 160%R
  /\ left (crop_region (timestamp Samples.vga_4s - timestamp Samples.vga0)
                       Samples.vga_4s) = 320%R
  /\ regions (events o) <> regions_since (timestamp Samples.vga0) fs
  /\ firstTimestamp_ (this (final o)) = Some 4000000%Z.
Proof.
  cbv zeta. rewrite !crop_feed_cons. cbv zeta.
  assert (L0 : left (crop_region 0 Samples.vga_4s) = 160%R).
  { cbn [left crop_region]. rewrite crop_left_at_0. cbn. lra. }
  assert (L1 : left (crop_region
                       (timestamp Samples.vga_4s - timestamp Samples.vga0)
                       Samples.vga_4s) = 320%R).
  { cbn [left crop_region]. cbn [timestamp Samples.vga_4s Samples.vga0
                                   Samples.frame].
    change (4000000 - 0)%Z with 4000000%Z.
    rewrite crop_left_at_4s. cbn. lra. }
  assert (E : regions
                (events (run (feed []) (mk (Some 4000000%Z)) 4)) = [])
    by reflexivity.
  repeat split.
  - exact L0.
  - exact L1.
  - intros X.
    apply (f_equal (fun l => left (nth 1 l (mkRegion 0 0 0 0)))) in X.
    unfold regions, regions_since in X.
    cbn [events run feed ret app enqueued flat_map map snd visibleRegion
         cropped first_after firstTimestamp_ constructor Samples.vga0
         Samples.vga_4s Samples.frame timestamp Z.eqb nth] in X.
    change (4000000 - 0)%Z with 4000000%Z in X.
    change (4000000 - 4000000)%Z with 0%Z in X.
    cbn [left crop_region visibleRegion width] in X.
    rewrite crop_left_at_4s, crop_left_at_0 in X. cbn in X. lra.
Qed.

(** C8: whatever the stage has seen before and whatever the frame's
    timestamp, the one frame [transform] enqueues has a visible region
    exactly half as wide and half as high as the input frame's. *)
Theorem crop_halves_region p f s n :
  exists g,
    enqueued (events (run (transform p f) s n)) = [g]
    /\ width (visibleRegion g) = (width (visibleRegion f) / 2)%R
    /\ height (visibleRegion g) = (height (visibleRegion f) / 2)%R.
Proof.
  rewrite crop_transform_run. cbn [events enqueued flat_map app].
  eexists. split; [reflexivity|]. split; reflexivity.
Qed.

End CropClaims.

Section ShaderClaims.
Import WebGPUTransform WebGPULife wgslShaders.
Local Open Scope R_scope.

Variable textureSample : GPUTextureView -> GPUSampler -> vec2 -> vec4.

Lemma submitted_ready p f n cv ctx dev vb dbg :
  submitted (events (run (transform p f)
               (mk (Some cv) (Some ctx) (Some dev) (Some the_pipeline) vb
                   (Some the_sampler) dbg) n))
  = [frame_pass vb f].
Proof.
  rewrite transform_ready. cbn [events].
  unfold submitted, configure_events. rewrite flat_map_app.
  destruct (dimensions_differ cv (displayWidth f) (displayHeight f));
    reflexivity.
Qed.

(** The one pass a reachable, ready stage submits for a frame. *)
Lemma submitted_reachable s p f n :
  reachable s -> ready s ->
  submitted (events (run (transform p f) s n))
  = [frame_pass (Some the_buffer) f].
Proof.
  intros H R.
  destruct (consistent_shape s (reachable_consistent s H) R)
    as (cv & ctx & dev & E).
  rewrite E. apply submitted_ready.
Qed.

(** At the centre of the quad the swirl leaves the coordinate in place:
    the sample is taken at (1, 1). *)
Lemma fragment_quadrants_centre :
  fragment_quadrants (0.5, 0.5) = (1, 1).
Proof.
  unfold fragment_quadrants. cbn [fst snd]. f_equal; lra.
Qed.

(** C9: the fragment program samples at a coordinate computed from
    [fragUV] alone.  Two runs of [transform], on stages with any history,
    at any allocation state, with any platform answers and for frames with
    any timestamps, that get the same pixels at the same display size,
    submit passes with the same bind group, and every fragment gets the
    same colour in both, sampled at [fragment_quadrants fragUV]. *)
Theorem fragment_time_invariant s1 s2 p1 p2 f1 f2 n1 n2 pass1 pass2 fragUV :
  reachable s1 -> ready s1 -> reachable s2 -> ready s2 ->
  pixels f1 = pixels f2 -> frame_size f1 = frame_size f2 ->
  In pass1 (submitted (events (run (transform p1 f1) s1 n1))) ->
  In pass2 (submitted (events (run (transform p2 f2) s2 n2))) ->
  pass_bindGroup pass1 = pass_bindGroup pass2
  /\ fragment_output textureSample pass1 fragUV =
     fragment_output textureSample pass2 fragUV
  /\ fragment_output textureSample pass1 fragUV =
     textureSample (binding1 (pass_bindGroup pass1))
                   (binding0 (pass_bindGroup pass1))
                   (fragment_quadrants fragUV).
Proof.
  intros H1 R1 H2 R2 Hp Hs I1 I2.
  rewrite (submitted_reachable s1 p1 f1 n1 H1 R1) in I1.
  rewrite (submitted_reachable s2 p2 f2 n2 H2 R2) in I2.
  destruct I1 as [<- | []]. destruct I2 as [<- | []].
  unfold frame_size in Hs. inversion Hs as [[Hw Hh]].
  assert (B : pass_bindGroup (frame_pass (Some the_buffer) f1) =
              pass_bindGroup (frame_pass (Some the_buffer) f2)).
  { unfold frame_pass. cbn [pass_bindGroup]. rewrite Hw, Hh, Hp.
    reflexivity. }
  split; [exact B|]. split.
  - unfold fragment_output. rewrite B. reflexivity.
  - reflexivity.
Qed.

End ShaderClaims.

Section ShaderWitness.
Import WebGPUTransform WebGPULife wgslShaders.

Lemma fragment_time_invariant_witness :
  reachable Samples.ready_stage /\ ready Samples.ready_stage
  /\ reachable Samples.used_stage /\ ready Samples.used_stage
  /\ pixels Samples.vga0 = pixels Samples.vga0_again
  /\ frame_size Samples.vga0 = frame_size Samples.vga0_again
  /\ In (frame_pass (Some the_buffer) Samples.vga0)
        (submitted (events (run (transform Samples.platform_ok Samples.vga0)
                                Samples.ready_stage 1)))
  /\ In (frame_pass (Some the_buffer) Samples.vga0_again)
        (submitted (events (run (transform Samples.platform_no_adapter
                                   Samples.vga0_again) Samples.used_stage 9)))
  /\ pass_bindGroup (frame_pass (Some the_buffer) Samples.vga0) =
     pass_bindGroup (frame_pass (Some the_buffer) Samples.vga0_again).
Proof.
  assert (H1 : reachable Samples.ready_stage)
    by exact (reach_init WebGPUTransform.constructor Samples.platform_ok 0
                reach_new eq_refl).
  assert (R1 : ready Samples.ready_stage) by (cbn; discriminate).
  assert (H2 : reachable Samples.used_stage)
    by exact (reach_transform Samples.ready_stage Samples.platform_ok
                Samples.vga1 5 H1).
  assert (R2 : ready Samples.used_stage) by (cbn; discriminate).
  assert (Hp : pixels Samples.vga0 = pixels Samples.vga0_again) by reflexivity.
  assert (Hs : frame_size Samples.vga0 = frame_size Samples.vga0_again)
    by reflexivity.
  assert (I1 : In (frame_pass (Some the_buffer) Samples.vga0)
        (submitted (events (run (transform Samples.platform_ok Samples.vga0)
                                Samples.ready_stage 1))))
    by (left; reflexivity).
  assert (I2 : In (frame_pass (Some the_buffer) Samples.vga0_again)
        (submitted (events (run (transform Samples.platform_no_adapter
                                   Samples.vga0_again) Samples.used_stage 9))))
    by (left; reflexivity).
  split; [exact H1 | split; [exact R1 | split; [exact H2 | split;
    [exact R2 | split; [exact Hp | split; [exact Hs | split;
    [exact I1 | split; [exact I2|]]]]]]]].
  exact (proj1 (fragment_time_invariant (fun _ _ uv => (fst uv, snd uv, 0%R, 1%R))
                  Samples.ready_stage Samples.used_stage Samples.platform_ok
                  Samples.platform_no_adapter Samples.vga0 Samples.vga0_again 1 9
                  (frame_pass (Some the_buffer) Samples.vga0)
                  (frame_pass (Some the_buffer) Samples.vga0_again) (0.5%R, 0.5%R)
                  H1 R1 H2 R2 Hp Hs I1 I2)).
Defined.
End ShaderWitness.

Section LifeCycleFacts.
Import WebGPUTransform WebGPULife.

Lemma reachable_debugPath s :
  reachable s -> debugPath_ s = debugPath_ constructor.
Proof.
  induction 1 as [ | s p n H IH D | s p f n H IH | s n H IH ].
  - reflexivity.
  - destruct (init_cases p) as [F | (c & a & d & Hc & Ha & Hd)].
    + rewrite (init_failed_run p s n F D). exact IH.
    + rewrite (init_ok p s n c a d Hc Ha Hd). exact IH.
  - destruct (ready_dec s) as [R | D].
    + destruct (consistent_shape s (reachable_consistent s H) R)
        as (cv & ctx & dev & E).
      rewrite E, transform_ready. cbn. exact IH.
    + rewrite (transform_disabled p f s n (or_introl D)). exact IH.
  - destruct (verticesBuffer_ s) as [b|] eqn:V.
    + rewrite (destroy_with_buffer s n b V). exact IH.
    + rewrite (destroy_without_buffer s n V). exact IH.
Qed.

Lemma not_failed_acquired p :
  ~ init_failed p ->
  exists c a d, getContext_gpupresent p = Some c /\ requestAdapter p = Some a
                /\ requestDevice p = Some d.
Proof.
  intros N. destruct (init_cases p) as [F | A]; [contradiction | exact A].
Qed.

(** X1: on a stage that holds no device, [init] always returns; the stage
    can process frames afterwards exactly when the graphics context, the
    adapter and the device were all acquired, and the user is alerted exactly
    once when one of them was not and not at all otherwise.  The canvas is a
    new 1x1 canvas in both cases. *)
Theorem init_ready_iff_acquired p s n :
  device_ s = None ->
  let o := run (init p) s n in
  completion o = Returned tt
  /\ next_handle (final o) = n
  /\ (ready (this (final o)) <-> ~ init_failed p)
  /\ (alerts (events o) = 1 <-> init_failed p)
  /\ (alerts (events o) = 0 <-> ~ init_failed p)
  /\ canvas_size (this (final o)) = Some (1, 1)%Z.
Proof.
  intros D. cbv zeta.
  destruct (init_cases p) as [F | (c & a & d & Hc & Ha & Hd)].
  - rewrite (init_failed_run p s n F D). cbn.
    unfold ready. cbn. repeat split; try tauto; try congruence.
  - assert (N : ~ init_failed p).
    { unfold init_failed. rewrite Hc, Ha, Hd.
      intros [X | [X | X]]; discriminate. }
    rewrite (init_ok p s n c a d Hc Ha Hd). cbn.
    unfold ready. cbn. repeat split; try tauto; try congruence.
Qed.

Lemma init_ready_iff_acquired_witness :
  device_ constructor = None
  /\ alerts (events (run (init Samples.platform_no_adapter) constructor 0)) = 1.
Proof.
  split; [reflexivity|].
  apply (proj2 (proj1 (proj2 (proj2 (proj2
    (init_ready_iff_acquired Samples.platform_no_adapter constructor 0
       eq_refl)))))).
  right. left. reflexivity.
Defined.

(** X2: a successful [init] overwrites every field it uses: called on a
    stage that was destroyed (or on which [destroy] threw), it leaves the
    stage exactly as a successful [init] leaves a new stage. *)
Theorem init_after_destroy_as_new s p n n' n0 :
  reachable s -> ~ init_failed p ->
  this (final (run (init p) (this (final (run destroy s n))) n'))
  = this (final (run (init p) constructor n0)).
Proof.
  intros H N.
  destruct (not_failed_acquired p N) as (c & a & d & Hc & Ha & Hd).
  rewrite !(init_ok p _ _ c a d Hc Ha Hd). cbn [this final].
  rewrite (reachable_debugPath _ (reach_destroy s n H)). reflexivity.
Qed.

Lemma init_after_destroy_as_new_witness :
  reachable Samples.used_stage /\ ~ init_failed Samples.platform_ok
  /\ this (final (run (init Samples.platform_ok)
                      (this (final (run destroy Samples.used_stage 8))) 8))
     = Samples.ready_stage.
Proof.
  assert (H : reachable Samples.used_stage)
    by exact (reach_transform Samples.ready_stage Samples.platform_ok
                Samples.vga1 5
                (reach_init WebGPUTransform.constructor Samples.platform_ok 0
                   reach_new eq_refl)).
  assert (N : ~ init_failed Samples.platform_ok)
    by (intros [X | [X | X]]; discriminate X).
  split; [exact H | split; [exact N|]].
  exact (init_after_destroy_as_new Samples.used_stage Samples.platform_ok
           8 8 0 H N).
Defined.

(** X3: [setSize] resizes the canvas before it touches the context.
    Without a canvas it throws and leaves the stage as it was; with a canvas
    but without a context it throws after the canvas has already got the new
    size, and configures nothing; with both it returns, the canvas has the
    new size and the context was configured exactly once, with the stage's
    device and the swap chain format. *)
Theorem setSize_cases w h s n :
  run (setSize w h) s n =
  match canvas_ s, context_ s with
  | None, _ => mkOutcome (mkMachine s n) [] (Thrown (TypeError "canvas_"))
  | Some _, None =>
      mkOutcome (mkMachine (set_canvas_ (Some (mkCanvas w h None)) s) n) []
                (Thrown (TypeError "context_"))
  | Some _, Some _ =>
      mkOutcome (mkMachine (set_canvas_ (Some (mkCanvas w h None)) s) n)
                [EvConfigure w h (device_ s) swapChainFormat] (Returned tt)
  end.
Proof.
  destruct s as [[cv|] [ctx|] dev pl vb sm dbg]; reflexivity.
Qed.

(** X16: [destroy] on a stage that holds a device returns, destroys the
    vertex buffer and only sets [device_] to null; it keeps
    [verticesBuffer_], so a second [destroy] returns as well and destroys
    the same buffer once more. *)
Theorem destroy_twice s n n' :
  reachable s -> ready s ->
  let o1 := run destroy s n in
  let o2 := run destroy (this (final o1)) n' in
  completion o1 = Returned tt
  /\ this (final o1) = set_device_ None s
  /\ destroyed_buffers (events o1) = [the_buffer]
  /\ completion o2 = Returned tt
  /\ this (final o2) = this (final o1)
  /\ destroyed_buffers (events o2) = [the_buffer].
Proof.
  intros H R.
  destruct (reachable_consistent s H R) as (_ & _ & _ & B & _).
  cbv zeta. rewrite (destroy_with_buffer s n the_buffer B). cbn [this final].
  rewrite (destroy_with_buffer (set_device_ None s) n' the_buffer B).
  cbn. repeat split.
Qed.

Lemma destroy_twice_witness :
  reachable Samples.ready_stage /\ ready Samples.ready_stage
  /\ destroyed_buffers
       (events (run destroy
                    (this (final (run destroy Samples.ready_stage 0))) 0))
     = [the_buffer].
Proof.
  assert (H : reachable Samples.ready_stage)
    by exact (reach_init WebGPUTransform.constructor Samples.platform_ok 0
                reach_new eq_refl).
  assert (R : ready Samples.ready_stage) by (cbn; discriminate).
  split; [exact H | split; [exact R|]].
  exact (proj2 (proj2 (proj2 (proj2 (proj2
    (destroy_twice Samples.ready_stage 0 0 H R)))))).
Defined.

End LifeCycleFacts.

Section ProcessingFacts.
Import WebGPUTransform WebGPULife.

Lemma closed_app evs1 evs2 : closed (evs1 ++ evs2) = closed evs1 ++ closed evs2.
Proof. unfold closed. apply flat_map_app. Qed.

Lemma configure_events_quiet cv dev f :
  closed (configure_events cv dev f) = []
  /\ enqueued (configure_events cv dev f) = [].
Proof.
  unfold configure_events.
  destruct (dimensions_differ cv (displayWidth f) (displayHeight f));
    split; reflexivity.
Qed.

Lemma dimensions_differ_size_eqb cv f :
  (if dimensions_differ cv (displayWidth f) (displayHeight f) then 1 else 0)
  = (if size_eqb (canvas_width cv, canvas_height cv) (frame_size f)
     then 0 else 1).
Proof.
  unfold dimensions_differ, size_eqb, frame_size. cbn [fst snd].
  destruct (Z.eqb (canvas_width cv) (displayWidth f)),
           (Z.eqb (canvas_height cv) (displayHeight f)); reflexivity.
Qed.

Lemma transform_final_state p f s n :
  exists c, this (final (run (transform p f) s n)) = set_canvas_ c s.
Proof.
  destruct s as [[cv|] [ctx|] [dev|] [pl|] [vb|] [sm|] dbg];
    unfold run, transform, bind at 1, get_this; cbn [this device_ canvas_];
    try (eexists; reflexivity);
    destruct (dimensions_differ cv (displayWidth f) (displayHeight f));
    eexists; reflexivity.
Qed.

(** X4: whatever the stage holds and whether the call returns or throws,
    [transform] assigns nothing but the canvas: the device, the context, the
    render pipeline, the vertex buffer and the sampler stay as they were. *)
Theorem transform_only_touches_canvas p f s n :
  let s' := this (final (run (transform p f) s n)) in
  context_ s' = context_ s /\ device_ s' = device_ s
  /\ renderPipeline_ s' = renderPipeline_ s
  /\ verticesBuffer_ s' = verticesBuffer_ s
  /\ sampler_ s' = sampler_ s /\ debugPath_ s' = debugPath_ s.
Proof.
  cbv zeta. destruct (transform_final_state p f s n) as [c ->].
  repeat split.
Qed.

(** X5: what one [transform] call does on a stage that holds a device, in
    order: it configures the surface if the size changed, closes the
    intermediate bitmap, closes the input frame, submits one render pass
    (viewport of the frame's display size, the stage's pipeline, vertex
    buffer and sampler, a view of the frame's texture, 6 vertices), enqueues
    one frame made from the canvas and destroys the per-frame texture last.
    It allocates three objects and leaves the canvas with the frame's size
    and the rendered picture. *)
Theorem transform_trace s p f n :
  reachable s -> ready s ->
  exists cv dev,
    canvas_ s = Some cv /\ device_ s = Some dev
    /\ run (transform p f) s n =
       mkOutcome
         (mkMachine
            (set_canvas_
               (Some (mkCanvas (displayWidth f) (displayHeight f)
                               (Some (output_pixels f)))) s)
            (3 + n))
         (configure_events cv dev f ++
          [EvBitmapClose (S n); EvFrameClose (frame_handle f);
           EvSubmit (frame_pass (Some the_buffer) f);
           EvEnqueue (output_frame n f); EvTextureDestroy n])
         (Returned tt).
Proof.
  intros H R.
  destruct (consistent_shape s (reachable_consistent s H) R)
    as (cv & ctx & dev & E).
  exists cv, dev. rewrite E. cbn [canvas_ device_].
  split; [reflexivity | split; [reflexivity|]].
  rewrite transform_ready. reflexivity.
Qed.

Lemma transform_trace_witness :
  reachable Samples.ready_stage /\ ready Samples.ready_stage
  /\ exists cv dev,
       canvas_ Samples.ready_stage = Some cv
       /\ device_ Samples.ready_stage = Some dev
       /\ run (transform Samples.platform_ok Samples.vga0)
              Samples.ready_stage 1 =
          mkOutcome
            (mkMachine
               (set_canvas_
                  (Some (mkCanvas (displayWidth Samples.vga0)
                                  (displayHeight Samples.vga0)
                                  (Some (output_pixels Samples.vga0))))
                  Samples.ready_stage)
               (3 + 1))
            (configure_events cv dev Samples.vga0 ++
             [EvBitmapClose 2; EvFrameClose (frame_handle Samples.vga0);
              EvSubmit (frame_pass (Some the_buffer) Samples.vga0);
              EvEnqueue (output_frame 1 Samples.vga0); EvTextureDestroy 1])
            (Returned tt).
Proof.
  assert (H : reachable Samples.ready_stage)
    by exact (reach_init WebGPUTransform.constructor Samples.platform_ok 0
                reach_new eq_refl).
  assert (R : ready Samples.ready_stage) by (cbn; discriminate).
  split; [exact H | split; [exact R|]].
  exact (transform_trace Samples.ready_stage Samples.platform_ok
           Samples.vga0 1 H R).
Defined.

Lemma last_cons {A} (l : list A) : forall x d, last (x :: l) d = last l x.
Proof.
  induction l as [|y l IH]; intros x d; [reflexivity|].
  change (last (x :: y :: l) d) with (last (y :: l) d).
  rewrite !IH. reflexivity.
Qed.

(** A run of frames through a stage that holds a device. *)
Lemma feed_ready_shape fs :
  forall n cv ctx dev vb dbg,
    let o := run (feed fs)
                 (mk (Some cv) (Some ctx) (Some dev) (Some the_pipeline) vb
                     (Some the_sampler) dbg) n in
    completion o = Returned tt
    /\ map timestamp (enqueued (events o))
       = map (fun pf => timestamp (snd pf)) fs
    /\ map frame_size (enqueued (events o))
       = map (fun pf => frame_size (snd pf)) fs
    /\ closed (events o) = map (fun pf => frame_handle (snd pf)) fs
    /\ reconfigurations (events o)
       = size_changes (canvas_width cv, canvas_height cv)
                      (map (fun pf => frame_size (snd pf)) fs)
    /\ next_handle (final o) = 3 * List.length fs + n
    /\ exists cv',
         this (final o)
         = mk (Some cv') (Some ctx) (Some dev) (Some the_pipeline) vb
              (Some the_sampler) dbg
         /\ (canvas_width cv', canvas_height cv')
            = last_size (canvas_width cv, canvas_height cv) fs.
Proof.
  induction fs as [|[p f] fs IH]; intros n cv ctx dev vb dbg.
  - cbn. repeat split. exists cv. split; reflexivity.
  - cbv zeta. unfold run. cbn [feed ft_transform WebGPUTransform_ft].
    rewrite (bind_returned _ _ _ _ _ _
               (transform_ready p f n cv ctx dev vb dbg)).
    specialize (IH (3 + n)
                   (mkCanvas (displayWidth f) (displayHeight f)
                             (Some (output_pixels f)))
                   ctx dev vb dbg).
    cbv zeta in IH. unfold run in IH.
    destruct IH as (I1 & I2 & I3 & I4 & I5 & I6 & cv' & I7 & I8).
    destruct (configure_events_quiet cv dev f) as [Q1 Q2].
    cbn [events completion final].
    rewrite !enqueued_app, !closed_app, !reconfigurations_app, Q1, Q2,
      configure_events_count, dimensions_differ_size_eqb.
    cbn [app enqueued closed flat_map map snd]. cbn [enqueued] in I2, I3.
    cbn [closed] in I4.
    rewrite I2, I3, I4, I5, I6.
    split; [exact I1|]. split; [reflexivity|]. split; [reflexivity|].
    split; [reflexivity|].
    split.
    { cbn [size_changes canvas_width canvas_height]. unfold frame_size.
      unfold reconfigurations at 1. cbn. lia. }
    split; [cbn [List.length]; lia|].
    exists cv'. split; [exact I7|]. rewrite I8.
    unfold last_size. cbn [map snd canvas_width canvas_height].
    rewrite last_cons. reflexivity.
Qed.

(** X6: a run of frames through a stage that holds a device returns, closes
    every input frame once and in order, and enqueues one frame per input,
    in the input order, with the input's timestamp and display size; the
    stage still holds its device afterwards and the canvas has the size of
    the last frame. *)
Theorem webgpu_feed_one_to_one s fs n :
  reachable s -> ready s ->
  let o := run (feed fs) s n in
  completion o = Returned tt
  /\ map timestamp (enqueued (events o))
     = map (fun pf => timestamp (snd pf)) fs
  /\ map frame_size (enqueued (events o))
     = map (fun pf => frame_size (snd pf)) fs
  /\ closed (events o) = map (fun pf => frame_handle (snd pf)) fs
  /\ ready (this (final o))
  /\ (forall cur, canvas_size s = Some cur ->
      canvas_size (this (final o)) = Some (last_size cur fs)).
Proof.
  intros H R.
  destruct (consistent_shape s (reachable_consistent s H) R)
    as (cv & ctx & dev & E).
  cbv zeta. rewrite E.
  destruct (feed_ready_shape fs n cv ctx dev (Some the_buffer) (debugPath_ s))
    as (I1 & I2 & I3 & I4 & _ & _ & cv' & I7 & I8).
  split; [exact I1|]. split; [exact I2|]. split; [exact I3|].
  split; [exact I4|]. rewrite I7. split.
  - unfold ready. cbn. discriminate.
  - intros cur C. unfold canvas_size in *. cbn in C |- *.
    injection C as <-. rewrite I8. reflexivity.
Qed.

Lemma webgpu_feed_one_to_one_witness :
  reachable Samples.ready_stage /\ ready Samples.ready_stage
  /\ map timestamp
       (enqueued (events (run (feed [(Samples.platform_ok, Samples.vga0);
                                     (Samples.platform_ok, Samples.vga1);
                                     (Samples.platform_ok, Samples.vga2)])
                              Samples.ready_stage 3)))
     = [0; 33333; 66667]%Z.
Proof.
  assert (H : reachable Samples.ready_stage)
    by exact (reach_init WebGPUTransform.constructor Samples.platform_ok 0
                reach_new eq_refl).
  assert (R : ready Samples.ready_stage) by (cbn; discriminate).
  split; [exact H | split; [exact R|]].
  exact (proj1 (proj2
    (webgpu_feed_one_to_one Samples.ready_stage
       [(Samples.platform_ok, Samples.vga0);
        (Samples.platform_ok, Samples.vga1);
        (Samples.platform_ok, Samples.vga2)] 3 H R))).
Defined.

(** X7: over any run of frames through a stage that holds a device, the
    surface is configured once for every change of display size along the
    run, counted from the canvas size the run starts with. *)
Theorem reconfigurations_count_size_changes s fs n cur :
  reachable s -> ready s -> canvas_size s = Some cur ->
  reconfigurations (events (run (feed fs) s n))
  = size_changes cur (map (fun pf => frame_size (snd pf)) fs).
Proof.
  intros H R C.
  destruct (consistent_shape s (reachable_consistent s H) R)
    as (cv & ctx & dev & E).
  rewrite E in C |- *. unfold canvas_size in C. cbn in C. injection C as <-.
  exact (proj1 (proj2 (proj2 (proj2 (proj2
    (feed_ready_shape fs n cv ctx dev (Some the_buffer) (debugPath_ s))))))).
Qed.

Lemma reconfigurations_count_size_changes_witness :
  reachable Samples.ready_stage /\ ready Samples.ready_stage
  /\ canvas_size Samples.ready_stage = Some (1, 1)%Z
  /\ reconfigurations
       (events (run (feed [(Samples.platform_ok, Samples.vga0);
                           (Samples.platform_ok,
                            Samples.frame 1 33333 320 240);
                           (Samples.platform_ok, Samples.vga2)])
                    Samples.ready_stage 3))
     = 3.
Proof.
  assert (H : reachable Samples.ready_stage)
    by exact (reach_init WebGPUTransform.constructor Samples.platform_ok 0
                reach_new eq_refl).
  assert (R : ready Samples.ready_stage) by (cbn; discriminate).
  assert (C : canvas_size Samples.ready_stage = Some (1, 1)%Z)
    by reflexivity.
  split; [exact H | split; [exact R | split; [exact C|]]].
  exact (reconfigurations_count_size_changes Samples.ready_stage
           [(Samples.platform_ok, Samples.vga0);
            (Samples.platform_ok, Samples.frame 1 33333 320 240);
            (Samples.platform_ok, Samples.vga2)] 3 (1, 1)%Z H R C).
Defined.

(** X8: the geometry [init] uploads matches how [transform] draws it: in
    every pass submitted by a stage that holds a device, the vertex buffer
    is exactly as long as the vertices drawn times the pipeline's array
    stride (and as its data, at 4 bytes per float), every vertex attribute
    lies inside one stride, and the viewport is the frame's display size. *)
Theorem pass_geometry_fits s p f n pass :
  reachable s -> ready s ->
  In pass (submitted (events (run (transform p f) s n))) ->
  exists vb,
    pass_vertexBuffer pass = Some vb
    /\ verticesBuffer_ s = Some vb
    /\ buffer_size vb = (pass_draw pass * arrayStride (pass_pipeline pass))%Z
    /\ buffer_size vb = byteLength (buffer_data vb)
    /\ forallb (attribute_fits (arrayStride (pass_pipeline pass)))
               (attributes (pass_pipeline pass)) = true
    /\ pass_viewport pass = frame_size f.
Proof.
  intros H R I.
  rewrite (submitted_reachable s p f n H R) in I.
  destruct I as [<- | []].
  destruct (reachable_consistent s H R) as (_ & _ & _ & B & _).
  exists the_buffer. cbn [pass_vertexBuffer frame_pass].
  split; [reflexivity|]. split; [exact B|]. repeat split.
Qed.

Lemma pass_geometry_fits_witness :
  reachable Samples.ready_stage /\ ready Samples.ready_stage
  /\ In (frame_pass (Some the_buffer) Samples.vga0)
        (submitted (events (run (transform Samples.platform_ok Samples.vga0)
                                Samples.ready_stage 1)))
  /\ exists vb,
       pass_vertexBuffer (frame_pass (Some the_buffer) Samples.vga0) = Some vb
       /\ verticesBuffer_ Samples.ready_stage = Some vb
       /\ buffer_size vb = (6 * 20)%Z.
Proof.
  assert (H : reachable Samples.ready_stage)
    by exact (reach_init WebGPUTransform.constructor Samples.platform_ok 0
                reach_new eq_refl).
  assert (R : ready Samples.ready_stage) by (cbn; discriminate).
  assert (I : In (frame_pass (Some the_buffer) Samples.vga0)
        (submitted (events (run (transform Samples.platform_ok Samples.vga0)
                                Samples.ready_stage 1))))
    by (left; reflexivity).
  split; [exact H | split; [exact R | split; [exact I|]]].
  destruct (pass_geometry_fits Samples.ready_stage Samples.platform_ok
              Samples.vga0 1 _ H R I) as (vb & A & B & C & _).
  exists vb. split; [exact A | split; [exact B | exact C]].
Defined.

End ProcessingFacts.

Section SimpleStageFacts.

Lemma drop_feed_cons p f fs (s : DropTransform.t) n :
  run (feed ((p, f) :: fs)) s n =
  let o := run (feed fs) s n in
  mkOutcome (final o)
    ((if Rlt_dec (Math_random p) 0.5
      then EvEnqueue f else EvFrameClose (frame_handle f)) :: events o)
    (completion o).
Proof.
  unfold run. cbn [feed ft_transform DropTransform_ft].
  pose proof (drop_transform_run p f s n) as T. unfold run in T.
  rewrite (bind_returned _ _ _ _ _ _ T). reflexivity.
Qed.

(** X9: over a run of frames DropTransform always returns and keeps no
    state; the frames whose random draw is below 0.5 are enqueued, unchanged
    and in order, all the others are closed, in order, and no frame is both
    or neither. *)
Theorem drop_feed_partition fs (s : DropTransform.t) n :
  let o := run (feed fs) s n in
  completion o = Returned tt
  /\ final o = mkMachine s n
  /\ enqueued (events o) = map snd (filter passes fs)
  /\ closed (events o)
     = map (fun pf => frame_handle (snd pf))
           (filter (fun pf => negb (passes pf)) fs)
  /\ List.length (enqueued (events o)) + List.length (closed (events o))
     = List.length fs.
Proof.
  cbv zeta. induction fs as [|[p f] fs IH].
  - repeat split.
  - destruct IH as (I1 & I2 & I3 & I4 & I5).
    rewrite drop_feed_cons. cbv zeta. cbn [completion final events].
    split; [exact I1|]. split; [exact I2|].
    cbn [filter].
    assert (P : passes (p, f)
                = if Rlt_dec (Math_random p) 0.5 then true else false)
      by reflexivity.
    rewrite P. rewrite I3, I4 in I5.
    destruct (Rlt_dec (Math_random p) 0.5); cbn [negb map snd];
      change (enqueued (?e :: ?l)) with (enqueued [e] ++ enqueued l);
      change (closed (?e :: ?l)) with (closed [e] ++ closed l);
      cbn [enqueued closed flat_map app List.length];
      rewrite I3, I4; cbn [List.length]; repeat split; lia.
Qed.

(** X10: NullTransform hands every frame of a run to the sink, unchanged
    and in order, and does nothing else. *)
Theorem null_feed_passthrough fs (s : NullTransform.t) n :
  run (feed fs) s n
  = mkOutcome (mkMachine s n) (map (fun pf => EvEnqueue (snd pf)) fs)
              (Returned tt).
Proof.
  induction fs as [|[p f] fs IH]; [reflexivity|].
  unfold run in *. cbn [feed ft_transform NullTransform_ft].
  rewrite (bind_returned _ _ (mkMachine s n) (mkMachine s n)
             [EvEnqueue f] tt eq_refl).
  rewrite IH. reflexivity.
Qed.

(** X11: DelayTransform waits 100 ms before each frame of a run and then
    hands that frame to the sink, unchanged and in order; it closes
    nothing. *)
Theorem delay_feed_passthrough fs (s : DelayTransform.t) n :
  run (feed fs) s n
  = mkOutcome (mkMachine s n)
      (flat_map (fun pf => [EvTimeout 100; EvEnqueue (snd pf)]) fs)
      (Returned tt).
Proof.
  induction fs as [|[p f] fs IH]; [reflexivity|].
  unfold run in *. cbn [feed ft_transform DelayTransform_ft].
  rewrite (bind_returned _ _ (mkMachine s n) (mkMachine s n)
             [EvTimeout 100; EvEnqueue f] tt eq_refl).
  rewrite IH. reflexivity.
Qed.

End SimpleStageFacts.

Section CropFacts.
Import CropTransform CropLife.
Local Open Scope R_scope.

Lemma unit_scale_bounds t w :
  0 <= t <= 1 -> 0 <= w -> 0 <= t * w / 2 <= w / 2.
Proof.
  intros [T0 T1] W.
  assert (A : 0 <= t * w) by (apply Rmult_le_pos; assumption).
  assert (B : 0 <= (1 - t) * w) by (apply Rmult_le_pos; lra).
  lra.
Qed.

Lemma crop_left_bounds loop w : 0 <= w -> 0 <= crop_left loop w <= w / 2.
Proof.
  intros W. unfold crop_left. apply unit_scale_bounds; [|exact W].
  pose proof (SIN_bound (PI / 2 * loop)). lra.
Qed.

Lemma crop_top_bounds loop h : 0 <= h -> 0 <= crop_top loop h <= h / 2.
Proof.
  intros W. unfold crop_top. apply unit_scale_bounds; [|exact W].
  pose proof (COS_bound (PI / 2 * loop)). lra.
Qed.

(** X12: the region CropTransform requests lies inside the input frame's
    visible extent, whatever the timestamps: for a frame whose visible
    region has non-negative width and height, left is between 0 and half
    the width, top between 0 and half the height, and left + width and
    top + height do not exceed the input's width and height. *)
Theorem crop_region_inside s p f n g :
  0 <= width (visibleRegion f) -> 0 <= height (visibleRegion f) ->
  In g (enqueued (events (run (transform p f) s n))) ->
  0 <= left (visibleRegion g) <= width (visibleRegion f) / 2
  /\ 0 <= top (visibleRegion g) <= height (visibleRegion f) / 2
  /\ left (visibleRegion g) + width (visibleRegion g)
     <= width (visibleRegion f)
  /\ top (visibleRegion g) + height (visibleRegion g)
     <= height (visibleRegion f).
Proof.
  intros W H I. rewrite crop_transform_run in I. cbn in I.
  destruct I as [<- | []]. cbn [visibleRegion cropped crop_region left top
                                width height].
  pose proof (crop_left_bounds
                (IZR (timestamp f - first_after s (timestamp f)) / 4000000)
                _ W).
  pose proof (crop_top_bounds
                (IZR (timestamp f - first_after s (timestamp f)) / 4000000)
                _ H).
  lra.
Qed.

Lemma crop_region_inside_witness :
  0 <= width (visibleRegion Samples.vga1)
  /\ 0 <= height (visibleRegion Samples.vga1)
  /\ In (cropped 4%nat 0%Z Samples.vga1)
        (enqueued (events (run (transform Samples.platform_ok Samples.vga1)
                               constructor 4%nat)))
  /\ left (visibleRegion (cropped 4%nat 0%Z Samples.vga1))
     + width (visibleRegion (cropped 4%nat 0%Z Samples.vga1))
     <= width (visibleRegion Samples.vga1).
Proof.
  assert (W : 0 <= width (visibleRegion Samples.vga1)) by (cbn; lra).
  assert (H : 0 <= height (visibleRegion Samples.vga1)) by (cbn; lra).
  assert (I : In (cropped 4%nat 0%Z Samples.vga1)
        (enqueued (events (run (transform Samples.platform_ok Samples.vga1)
                               constructor 4%nat))))
    by (left; reflexivity).
  split; [exact W | split; [exact H | split; [exact I|]]].
  exact (proj1 (proj2 (proj2
    (crop_region_inside constructor Samples.platform_ok Samples.vga1 4%nat
       (cropped 4%nat 0%Z Samples.vga1) W H I)))).
Defined.






(** X14: the first frame a new CropTransform sees is cropped with no time
    elapsed, whatever its timestamp: the window starts a quarter of the
    width from the left and half the height from the top, so it reaches the
    bottom edge of the input. *)
Theorem crop_first_frame_region p f n :
  regions (events (run (transform p f) constructor n))
  = [mkRegion (width (visibleRegion f) / 4) (height (visibleRegion f) / 2)
              (width (visibleRegion f) / 2) (height (visibleRegion f) / 2)].
Proof.
  rewrite crop_transform_run. unfold regions, first_after. cbn.
  rewrite Z.sub_diag. unfold crop_region, crop_left, crop_top.
  replace (PI / 2 * (0 / 4000000)) with 0 by lra.
  rewrite sin_0, cos_0. f_equal. f_equal; lra.
Qed.

(** X15: over a run of frames CropTransform, in any state, always returns,
    closes every input frame once and in order, and enqueues one new frame
    object per input, in order, with the input's timestamp and pixels and a
    visible region of half the input's width and height. *)
Theorem crop_feed_one_to_one fs (s : t) n :
  let o := run (feed fs) s n in
  completion o = Returned tt
  /\ closed (events o) = map (fun pf => frame_handle (snd pf)) fs
  /\ map timestamp (enqueued (events o))
     = map (fun pf => timestamp (snd pf)) fs
  /\ map pixels (enqueued (events o)) = map (fun pf => pixels (snd pf)) fs
  /\ map (fun g => (width (visibleRegion g), height (visibleRegion g)))
         (enqueued (events o))
     = map (fun pf => (width (visibleRegion (snd pf)) / 2,
                       height (visibleRegion (snd pf)) / 2)) fs
  /\ map frame_handle (enqueued (events o)) = seq n (List.length fs).
Proof.
  cbv zeta. revert s n. induction fs as [|[p f] fs IH]; intros s n.
  - cbn. repeat split.
  - rewrite crop_feed_cons. cbv zeta. cbn [events completion].
    destruct (IH (mk (Some (first_after s (timestamp f)))) (S n))
      as (I1 & I2 & I3 & I4 & I5 & I6).
    rewrite closed_app, enqueued_app.
    cbn [closed enqueued flat_map app map snd].
    rewrite I2, I3, I4, I5, I6. repeat split. exact I1.
Qed.

End CropFacts.

Section CropReference.
Import CropTransform CropLife.

Lemma crop_reference_kept t0 fs :
  t0 <> 0%Z ->
  forall n, this (final (run (feed fs) (mk (Some t0)) n)) = mk (Some t0).
Proof.
  intros T. induction fs as [|[p f] fs IH]; intros n; [reflexivity|].
  rewrite crop_feed_cons. cbv zeta. cbn [final].
  assert (F : first_after (mk (Some t0)) (timestamp f) = t0).
  { unfold first_after. cbn. destruct (Z.eqb_spec t0 0); congruence. }
  rewrite F. apply IH.
Qed.

(** X17: when the first frame a new CropTransform sees has a non-zero
    timestamp, that timestamp stays the reference for the whole run:
    [firstTimestamp_] still holds it after any number of frames, and every
    frame is cropped by the time elapsed since the first one. *)
Theorem crop_reference_is_first_frame p f fs n :
  timestamp f <> 0%Z ->
  let o := run (feed ((p, f) :: fs)) constructor n in
  firstTimestamp_ (this (final o)) = Some (timestamp f)
  /\ regions (events o) = regions_since (timestamp f) ((p, f) :: fs).
Proof.
  intros T. cbv zeta. split.
  - rewrite crop_feed_cons. cbv zeta. cbn [final].
    unfold first_after. cbn [firstTimestamp_ constructor].
    rewrite (crop_reference_kept (timestamp f) fs T). reflexivity.
  - apply crop_regions_first_nonzero. exact T.
Qed.

Lemma crop_reference_is_first_frame_witness :
  timestamp Samples.vga1 <> 0%Z
  /\ firstTimestamp_
       (this (final (run (feed [(Samples.platform_ok, Samples.vga1);
                                (Samples.platform_ok, Samples.vga2)])
                         constructor 3)))
     = Some 33333%Z.
Proof.
  assert (T : timestamp Samples.vga1 <> 0%Z) by discriminate.
  split; [exact T|].
  exact (proj1 (crop_reference_is_first_frame Samples.platform_ok
                  Samples.vga1 [(Samples.platform_ok, Samples.vga2)] 3 T)).
Defined.

End CropReference.

Section SwirlFacts.
Import wgslShaders.
Local Open Scope R_scope.

Lemma rotation_keeps_norm x y s c :
  s * s + c * c = 1 ->
  (x * c + y * s) * (x * c + y * s) + (y * c - x * s) * (y * c - x * s)
  = x * x + y * y.
Proof.
  intros H.
  replace ((x * c + y * s) * (x * c + y * s)
           + (y * c - x * s) * (y * c - x * s))
    with ((x * x + y * y) * (s * s + c * c)) by ring.
  rewrite H. ring.
Qed.

(** X18: the fragment program's distortion is a rotation about the centre
    of the quad followed by a doubling of the coordinate: half the sampling
    coordinate is as far from the centre (0.5, 0.5) as the fragment's own
    coordinate. *)
Theorem swirl_keeps_distance_from_centre fragUV :
  distance (fst (fragment_quadrants fragUV) / 2,
            snd (fragment_quadrants fragUV) / 2) (0.5, 0.5)
  = distance fragUV (0.5, 0.5).
Proof.
  unfold fragment_quadrants, distance. cbn [fst snd].
  set (angle := pow (Rmax _ _ * _) _).
  pose proof (sin2_cos2 angle) as H. unfold Rsqr in H.
  f_equal.
  rewrite <- (rotation_keeps_norm (fst fragUV - 0.5) (snd fragUV - 0.5)
                (sin angle) (cos angle) H).
  f_equal; f_equal; lra.
Qed.

(** X19: on and outside the circle of radius 0.5 around the centre the
    rotation angle is zero, so the fragment program samples at exactly twice
    the fragment's coordinate: only the inside of the circle is swirled. *)
Theorem swirl_identity_outside_circle fragUV :
  0.5 <= distance fragUV (0.5, 0.5) ->
  fragment_quadrants fragUV = (2 * fst fragUV, 2 * snd fragUV).
Proof.
  intros D. unfold fragment_quadrants.
  assert (A : pow (Rmax (0.5 - distance fragUV (0.5, 0.5)) 0.0 * 2.0) 2.0 = 0).
  { rewrite Rmax_right by lra. unfold pow.
    destruct (Req_dec_T (0.0 * 2.0) 0) as [_ | N]; [reflexivity|].
    exfalso. apply N. lra. }
  rewrite A, sin_0, cos_0. cbn [fst snd]. f_equal; lra.
Qed.

Lemma swirl_identity_outside_circle_witness :
  0.5 <= distance (1, 0.5) (0.5, 0.5)
  /\ fragment_quadrants (1, 0.5) = (2 * 1, 2 * 0.5).
Proof.
  assert (D : 0.5 <= distance (1, 0.5) (0.5, 0.5)).
  { unfold distance. cbn [fst snd].
    replace ((1 - 0.5) * (1 - 0.5) + (0.5 - 0.5) * (0.5 - 0.5))
      with (0.5 * 0.5) by lra.
    rewrite sqrt_square by lra. lra. }
  split; [exact D|].
  exact (swirl_identity_outside_circle (1, 0.5) D).
Defined.

End SwirlFacts.
